(** * DockuChat: the ingestion-and-retrieval pipeline

    A shallow embedding of [Backend/rag_pipeline.py] and of the endpoints of
    [Backend/api.py] that call into it, with the properties the specification
    states about them.

    Layout: Python helpers (strings, stable sort), the data model, the
    effect monad (a world with a file system, the Chroma store, standard
    output and the record of requests sent to external collaborators), the
    pipeline functions, the HTTP endpoints, then the theorems. *)

From Stdlib Require Import ZArith Lia Ascii.
From stdpp Require Import base tactics option list strings gmap fin_maps
  stringmap pretty sorting.

Local Open Scope Z_scope.
Local Open Scope nat_scope.

(** ** Python strings *)

Module PyStr.

(** [str.replace(old, new)] for a non-empty [old]: scan left to right; at
    an occurrence of [old] emit [new] and skip the occurrence.  [skip]
    counts the characters of the occurrence still to be passed over. *)
Fixpoint replace_go (old new : string) (skip : nat) (s : string) : string :=
  match s with
  | EmptyString => EmptyString
  | String c s' =>
      match skip with
      | S k => replace_go old new k s'
      | O =>
          if String.prefix old s
          then new +:+ replace_go old new (String.length old - 1) s'
          else String c (replace_go old new 0 s')
      end
  end.

Definition replace (old new s : string) : string := replace_go old new 0 s.

(** [sep.join(parts)] *)
Fixpoint join (sep : string) (parts : list string) : string :=
  match parts with
  | [] => ""
  | [p] => p
  | p :: rest => p +:+ sep +:+ join sep rest
  end.

(** Character-wise image of a string. *)
Fixpoint map (f : ascii -> ascii) (s : string) : string :=
  match s with
  | EmptyString => EmptyString
  | String c s' => String (f c) (map f s')
  end.

Fixpoint to_list (s : string) : list ascii :=
  match s with
  | EmptyString => []
  | String c s' => c :: to_list s'
  end.

End PyStr.

(** ** Collection naming ([rag_pipeline.py], lines 41-44) *)

(** [safe_name = filename.replace(" ", "_").replace(".", "_")];
    [return f"rag_{safe_name}"]. *)
Definition sanitize_filename_for_collection (filename : string) : string :=
  let safe_name := PyStr.replace "." "_" (PyStr.replace " " "_" filename) in
  "rag_" +:+ safe_name.

(** The naming rule in the words of the specification: every space and
    every period becomes an underscore, and a constant prefix is put in
    front. *)
Definition underscore_if_separator (c : ascii) : ascii :=
  if decide (c = " "%char) then "_"%char
  else if decide (c = "."%char) then "_"%char
  else c.

Definition name_by_rule (filename : string) : string :=
  "rag_" +:+ PyStr.map underscore_if_separator filename.

(** Two characters that naming cannot tell apart: equal, or both among
    space, period and underscore. *)
Definition is_blank_like (c : ascii) : Prop :=
  c = " "%char \/ c = "."%char \/ c = "_"%char.

Definition confusable (a b : ascii) : Prop :=
  a = b \/ (is_blank_like a /\ is_blank_like b).

(** ** Python values, exceptions, sorting *)

(** What a Python function hands back to its caller, as far as the
    pipeline's functions go: [None] or an integer. *)
Inductive PyValue : Type :=
| PyNone
| PyInt (n : Z).

(** A raised exception; [exn_msg] is what [f"{e}"] prints. *)
Record exn : Type := Exception { exn_msg : string }.

Inductive result (A : Type) : Type :=
| Ok (a : A)
| Raise (e : exn).
Arguments Ok {A} a.
Arguments Raise {A} e.

Definition LF : string := String (ascii_of_nat 10) "".

Module PyList.

(** [l.sort(key=key, reverse=True)]: Python's sort is stable, and with
    [reverse=True] elements with equal keys still keep their original
    order.  Insertion from the right: [x] goes behind every element of
    strictly larger key and in front of the others. *)
Fixpoint insert_reverse {A : Type} (key : A -> Z) (x : A) (l : list A) : list A :=
  match l with
  | [] => [x]
  | y :: l' =>
      if (key x <? key y)%Z then y :: insert_reverse key x l' else x :: l
  end.

Definition sort_reverse {A : Type} (key : A -> Z) (l : list A) : list A :=
  foldr (insert_reverse key) [] l.

(** [list(zip(xs, ys))]: stops at the shorter argument. *)
Fixpoint zip {A B : Type} (xs : list A) (ys : list B) : list (A * B) :=
  match xs, ys with
  | x :: xs', y :: ys' => (x, y) :: zip xs' ys'
  | _, _ => []
  end.

End PyList.

(** Descending order of keys, ties allowed. *)
Definition descending {A : Type} (key : A -> Z) : relation A :=
  fun a b => (key b <= key a)%Z.

(** ** Data model *)

(** An element of a partitioned document.  The pipeline tells [Table] and
    [UnstructuredImage] apart by [isinstance]; every other element is read
    through its [text]. *)
Inductive Element : Type :=
| Table (text_as_html : string)
| UnstructuredImage (image_path : string)
| OtherElement (text : string).

(** [langchain.schema.document.Document]: text and a metadata dict. *)
Record Document : Type := mkDocument {
  page_content : string;
  metadata : gmap string string
}.

(** [{"source": source, "type": kind}] *)
Definition source_type_metadata (source kind : string) : gmap string string :=
  <["source" := source]> (<["type" := kind]> ∅).

(** What [vector_store.get(include=["metadatas"])] returns: parallel lists. *)
Record GetResult : Type := mkGetResult {
  ids : list string;
  metadatas : list (gmap string string)
}.

(** Requests to the vector store. *)
Inductive StoreOp : Type :=
| OpOpen (collection_name : string)
| OpAdd (collection_name : string) (texts : list string)
| OpGet (collection_name : string)
| OpDelete (collection_name : string) (doc_ids : list string)
| OpPersist (collection_name : string)
| OpSearch (collection_name : string) (query : string) (k : nat).

(** Requests sent to the external collaborators, in the order sent. *)
Inductive Call : Type :=
| CallPartition (file_path : string)
| CallTableLLM (prompt : string)
| CallVisionLLM (image_bytes : string)
| CallSplitter (chunk_size chunk_overlap : nat) (text : string)
| CallStore (op : StoreOp)
| CallCrossEncoder (pairs : list (string * string))
| CallChatLLM (prompt : string).

(** How saving an upload fails, when it does ([api.py], lines 51-55):
    [open(file_path, "wb")] raises and no file is created, or
    [shutil.copyfileobj] raises after [open] has created the file, which
    then holds the bytes copied so far; the handler removes nothing. *)
Inductive SaveFault : Type :=
| OpenFails (e : exn)
| CopyFails (written : nat) (e : exn).

(** The external collaborators.  [partition] gives the elements and the
    image files it extracts into the output directory; a language-model
    call, the cross-encoder, the store and the saving of an upload can
    fail. *)
Record Capabilities : Type := {
  partition : string -> string -> result (list Element * gmap string string);
  table_llm : string -> string -> result string;
  vision_llm : string -> string -> result string;
  split_text : nat -> nat -> string -> list string;
  similarity_search : gmap string Document -> string -> nat -> list Document;
  predict : list (string * string) -> result (list Z);
  chat_llm : string -> string -> result string;
  store_fault : StoreOp -> option exn;
  save_fault : string -> option SaveFault
}.

(** The mutable world: files by path, the Chroma collections (name to
    entries, an entry being an id with its document), standard output and
    the requests sent so far. *)
Record World : Type := mkWorld {
  fs : gmap string string;
  chroma : gmap string (gmap string Document);
  stdout : list string;
  calls : list Call
}.

Definition set_fs (f : gmap string string -> gmap string string) (w : World) : World :=
  mkWorld (f (fs w)) (chroma w) (stdout w) (calls w).
Definition set_chroma
    (f : gmap string (gmap string Document) -> gmap string (gmap string Document))
    (w : World) : World :=
  mkWorld (fs w) (f (chroma w)) (stdout w) (calls w).
Definition add_stdout (line : string) (w : World) : World :=
  mkWorld (fs w) (chroma w) (stdout w ++ [line]) (calls w).
Definition add_call (c : Call) (w : World) : World :=
  mkWorld (fs w) (chroma w) (stdout w) (calls w ++ [c]).

(** The entries of a collection; a collection that does not exist has none. *)
Definition collection_at (w : World) (name : string) : gmap string Document :=
  default ∅ (chroma w !! name).

(** ** The effect monad: state and exceptions *)

Definition M (A : Type) : Type := World -> result A * World.

Global Instance M_ret : MRet M := fun A a w => (Ok a, w).

Global Instance M_bind : MBind M := fun A B k m w =>
  match m w with
  | (Ok a, w') => k a w'
  | (Raise e, w') => (Raise e, w')
  end.

Definition raise {A : Type} (e : exn) : M A := fun w => (Raise e, w).

Definition lift_result {A : Type} (r : result A) : M A := fun w => (r, w).

(** [try: body except Exception as e: handler e] *)
Definition try_except {A : Type} (body : M A) (handler : exn -> M A) : M A :=
  fun w =>
    match body w with
    | (Ok a, w') => (Ok a, w')
    | (Raise e, w') => handler e w'
    end.

Definition get_world : M World := fun w => (Ok w, w).
Definition modify_world (f : World -> World) : M unit := fun w => (Ok tt, f w).

Definition print (line : string) : M unit := modify_world (add_stdout line).
Definition record_call (c : Call) : M unit := modify_world (add_call c).

(** A computation keeps a relation between the world before and after,
    whether it returns or raises. *)
Definition preserves {A : Type} (R : relation World) (m : M A) : Prop :=
  forall w : World, R w (snd (m w)).

(** No file disappears. *)
Definition files_grow : relation World :=
  fun w w' => forall path : string, is_Some (fs w !! path) -> is_Some (fs w' !! path).

(** Files and collections are the same; only output and the record of
    requests may differ. *)
Definition same_data : relation World :=
  fun w w' => fs w' = fs w /\ chroma w' = chroma w.

(** Files are the same and every collection has the same entries (a
    collection may have been created empty). *)
Definition same_entries : relation World :=
  fun w w' => fs w' = fs w /\ forall name, collection_at w' name = collection_at w name.

(** No stored entry disappears or changes. *)
Definition entries_kept : relation World :=
  fun w w' => forall name, collection_at w name ⊆ collection_at w' name.

(** Every collection but [name] has the same entries. *)
Definition others_same (name : string) : relation World :=
  fun w w' => forall other, other <> name -> collection_at w' other = collection_at w other.

(** A document stored under another source than [filename]. *)
Definition other_source (filename : string) (d : Document) : Prop :=
  metadata d !! "source" <> Some filename.

Global Instance other_source_dec (filename : string) (d : Document) :
  Decision (other_source filename d).
Proof. unfold other_source. apply _. Defined.

(** A filename with neither a space nor a period. *)
Definition plain_name (filename : string) : Prop :=
  Forall (fun c => c <> " "%char /\ c <> "."%char) (PyStr.to_list filename).

(** ** Globals ([rag_pipeline.py], lines 25-26) *)

Definition VECTORSTORE_DIRECTORY : string := "./vector_store".
Definition UPLOAD_DIRECTORY : string := "./uploaded_files".

(** ** Files *)

Fixpoint ends_with_slash (s : string) : bool :=
  match s with
  | EmptyString => false
  | String c EmptyString => bool_decide (c = "/"%char)
  | String _ s' => ends_with_slash s'
  end.

(** [os.path.join(a, b)] on POSIX paths. *)
Definition os_path_join (a b : string) : string :=
  if String.prefix "/" b then b
  else if bool_decide (a = "") then b
  else if ends_with_slash a then a +:+ b
  else a +:+ "/" +:+ b.

(** A filename that names an entry of the upload directory itself: not
    empty, neither "." nor "..", and without a "/".  For such a name
    [os.path.join(UPLOAD_DIRECTORY, filename)] is the path of that entry
    of the upload directory, where the program only creates regular
    files. *)
Definition entry_name (filename : string) : Prop :=
  filename <> "" /\ filename <> "." /\ filename <> ".."
  /\ Forall (fun c => c <> "/"%char) (PyStr.to_list filename).

(** [os.path.exists(path)], for a world that holds the regular files, each
    under the path by which the program names it.  Directories and the
    other spellings of one path are not in the world: the test is that of
    the program where the path is that of a directory entry which can only
    be a regular file, as for an [entry_name] in the upload directory. *)
Definition os_path_exists (w : World) (path : string) : bool :=
  bool_decide (is_Some (fs w !! path)).

(** [with open(path, "rb") as f: f.read()] *)
Definition read_file (path : string) : M string :=
  w ← get_world;
  match fs w !! path with
  | Some bytes => mret bytes
  | None => raise (Exception ("[Errno 2] No such file or directory: " +:+ path))
  end.

(** [with open(path, "wb") as buffer: shutil.copyfileobj(src, buffer)]:
    [open] creates the file before the copy starts, so a copy that raises
    leaves the file with what was copied. *)
Definition write_file (caps : Capabilities) (path bytes : string) : M unit :=
  match save_fault caps path with
  | Some (OpenFails e) => raise e
  | Some (CopyFails written e) =>
      modify_world (set_fs (insert path (String.substring 0 written bytes)));;
      raise e
  | None => modify_world (set_fs (insert path bytes))
  end.

(** [os.remove(path)] *)
Definition os_remove (path : string) : M unit :=
  w ← get_world;
  match fs w !! path with
  | Some _ => modify_world (set_fs (delete path))
  | None => raise (Exception ("[Errno 2] No such file or directory: " +:+ path))
  end.

(** ** The vector store (langchain's Chroma wrapper) *)

(** The store answers every request. *)
Definition store_available (caps : Capabilities) : Prop :=
  forall op : StoreOp, store_fault caps op = None.

(** An entry that deletion by [filename] matches: its metadata's [source]
    is the filename. *)
Definition from_document (filename : string) (e : string * Document) : Prop :=
  metadata (snd e) !! "source" = Some filename.

Global Instance from_document_dec (filename : string) (e : string * Document) :
  Decision (from_document filename e).
Proof. unfold from_document. apply _. Defined.

(** Every request is recorded, then fails if the store does. *)
Definition store_request (caps : Capabilities) (op : StoreOp) : M unit :=
  record_call (CallStore op);;
  match store_fault caps op with
  | Some e => raise e
  | None => mret tt
  end.

(** [Chroma(collection_name=..., embedding_function=EMBEDDING_MODEL,
    persist_directory=VECTORSTORE_DIRECTORY)]: get or create the
    collection; the handle is the collection's name. *)
Definition get_or_create_collection (collection_name : string)
    (cs : gmap string (gmap string Document)) : gmap string (gmap string Document) :=
  match cs !! collection_name with
  | Some _ => cs
  | None => <[collection_name := ∅]> cs
  end.

Definition Chroma (caps : Capabilities) (collection_name : string) : M string :=
  store_request caps (OpOpen collection_name);;
  modify_world (set_chroma (get_or_create_collection collection_name));;
  mret collection_name.

(** One new entry under an id not yet in the collection (the wrapper draws
    a uuid per document). *)
Definition add_entry (c : gmap string Document) (doc : Document) : gmap string Document :=
  <[fresh_string "id" c := doc]> c.

(** [vector_store.add_documents(documents)] *)
Definition add_documents (caps : Capabilities) (vector_store : string)
    (documents : list Document) : M unit :=
  store_request caps (OpAdd vector_store (page_content <$> documents));;
  modify_world (set_chroma (fun cs =>
    <[vector_store := foldl add_entry (default ∅ (cs !! vector_store)) documents]> cs)).

(** [vector_store.persist()] *)
Definition persist (caps : Capabilities) (vector_store : string) : M unit :=
  store_request caps (OpPersist vector_store).

(** [vector_store.get(include=["metadatas"])] *)
Definition get_metadatas (caps : Capabilities) (vector_store : string) : M GetResult :=
  store_request caps (OpGet vector_store);;
  w ← get_world;
  let entries := map_to_list (collection_at w vector_store) in
  mret (mkGetResult (fst <$> entries) ((fun e => metadata (snd e)) <$> entries)).

(** [vector_store.delete(ids=ids)] *)
Definition delete_ids (caps : Capabilities) (vector_store : string)
    (doc_ids : list string) : M unit :=
  store_request caps (OpDelete vector_store doc_ids);;
  modify_world (set_chroma (fun cs =>
    <[vector_store := foldr delete (default ∅ (cs !! vector_store)) doc_ids]> cs)).

(** [vector_store.as_retriever(search_kwargs={"k": k})], invoked on a query. *)
Definition retriever_invoke (caps : Capabilities) (vector_store : string) (k : nat)
    (query : string) : M (list Document) :=
  store_request caps (OpSearch vector_store query k);;
  w ← get_world;
  mret (similarity_search caps (collection_at w vector_store) query k).

(** ** Helper functions ([rag_pipeline.py], lines 47-73) *)

(** [get_image_description(image_bytes, api_key)]: opening the image and
    the vision request are one step that succeeds or raises. *)
Definition get_image_description (caps : Capabilities) (image_bytes api_key : string)
    : M string :=
  record_call (CallVisionLLM image_bytes);;
  lift_result (vision_llm caps image_bytes api_key).

Definition table_prompt (table_html : string) : string :=
  "You are an expert at analyzing tables. Summarize the following HTML table. Describe its structure, columns, and a few example rows to capture its essence. This summary will be used for a retrieval system."
  +:+ LF +:+ LF +:+ "Table:" +:+ LF +:+ table_html.

(** [summarize_table(table_element, api_key)] *)
Definition summarize_table (caps : Capabilities) (table_html api_key : string) : M string :=
  let prompt := table_prompt table_html in
  record_call (CallTableLLM prompt);;
  lift_result (table_llm caps prompt api_key).

(** ** Ingestion ([rag_pipeline.py], lines 79-126) *)

(** One turn of the loop over the elements (lines 94-109). *)
Definition process_element (caps : Capabilities) (filename api_key : string)
    (element : Element) (documents_to_embed : list Document) (raw_text : string)
    : M (list Document * string) :=
  match element with
  | Table table_html =>
      summary ← summarize_table caps table_html api_key;
      mret (documents_to_embed
              ++ [mkDocument summary (source_type_metadata filename "table_summary")],
            raw_text)
  | UnstructuredImage image_path =>
      try_except
        (img_bytes ← read_file image_path;
         description ← get_image_description caps img_bytes api_key;
         mret (documents_to_embed
                 ++ [mkDocument description
                       (source_type_metadata image_path "image_description")],
               raw_text))
        (fun e =>
           print ("Could not process image " +:+ image_path +:+ ": " +:+ exn_msg e);;
           mret (documents_to_embed, raw_text))
  | OtherElement text =>
      mret (documents_to_embed, raw_text +:+ text +:+ LF +:+ LF)
  end.

(** The loop [for element in elements] (lines 93-109). *)
Fixpoint process_elements (caps : Capabilities) (filename api_key : string)
    (elements : list Element) (documents_to_embed : list Document) (raw_text : string)
    : M (list Document * string) :=
  match elements with
  | [] => mret (documents_to_embed, raw_text)
  | element :: rest =>
      acc ← process_element caps filename api_key element documents_to_embed raw_text;
      process_elements caps filename api_key rest (fst acc) (snd acc)
  end.

(** [partition(filename=file_path, extract_images_in_pdf=True,
    infer_table_structure=True, image_output_dir_path=UPLOAD_DIRECTORY)] *)
Definition partition_file (caps : Capabilities) (file_path : string) : M (list Element) :=
  record_call (CallPartition file_path);;
  bytes ← read_file file_path;
  out ← lift_result (partition caps file_path bytes);
  modify_world (set_fs (fun files => snd out ∪ files));;
  mret (fst out).

(** [RecursiveCharacterTextSplitter(chunk_size=.., chunk_overlap=..).split_text(text)] *)
Definition splitter_split_text (caps : Capabilities) (chunk_size chunk_overlap : nat)
    (text : string) : M (list string) :=
  record_call (CallSplitter chunk_size chunk_overlap text);;
  mret (split_text caps chunk_size chunk_overlap text).

Definition process_and_store_document (caps : Capabilities)
    (file_path filename api_key : string) : M unit :=
  print ("Starting ingestion for " +:+ filename +:+ "...");;
  elements ← partition_file caps file_path;
  acc ← process_elements caps filename api_key elements [] "";
  let documents_to_embed := fst acc in
  let raw_text := snd acc in
  text_chunks ← splitter_split_text caps 750 100 raw_text;
  let documents_to_embed :=
    documents_to_embed
    ++ ((fun chunk => mkDocument chunk (source_type_metadata filename "text"))
          <$> text_chunks) in
  let collection_name := sanitize_filename_for_collection filename in
  vector_store ← Chroma caps collection_name;
  add_documents caps vector_store documents_to_embed;;
  persist caps vector_store;;
  print ("Ingestion complete for " +:+ filename
         +:+ ". Vectors stored in collection: " +:+ collection_name).

(** What the loop over the elements is to produce, element by element:
    the summary of a table, the description of an image that can be read
    and described (nothing for one that cannot), and the text of any other
    element appended to the running text. *)
Definition element_documents (caps : Capabilities) (files : gmap string string)
    (filename api_key : string) (element : Element) : list Document :=
  match element with
  | Table table_html =>
      match table_llm caps (table_prompt table_html) api_key with
      | Ok summary => [mkDocument summary (source_type_metadata filename "table_summary")]
      | Raise _ => []
      end
  | UnstructuredImage image_path =>
      match files !! image_path with
      | Some img_bytes =>
          match vision_llm caps img_bytes api_key with
          | Ok description =>
              [mkDocument description
                 (source_type_metadata image_path "image_description")]
          | Raise _ => []
          end
      | None => []
      end
  | OtherElement _ => []
  end.

Definition accumulate_text (raw_text : string) (element : Element) : string :=
  match element with
  | OtherElement text => raw_text +:+ text +:+ LF +:+ LF
  | _ => raw_text
  end.

(** The table model answers for this element (any element that is not a
    table counts). *)
Definition table_ok (caps : Capabilities) (api_key : string) (element : Element) : Prop :=
  match element with
  | Table table_html =>
      exists summary, table_llm caps (table_prompt table_html) api_key = Ok summary
  | _ => True
  end.

(** The chunks a document is to leave in its collection: one per table,
    one per image that could be described, one per window of its text. *)
Definition ingested_documents (caps : Capabilities) (files : gmap string string)
    (filename api_key : string) (elements : list Element) : list Document :=
  (elements ≫= element_documents caps files filename api_key)
  ++ ((fun chunk => mkDocument chunk (source_type_metadata filename "text"))
        <$> split_text caps 750 100 (foldl accumulate_text "" elements)).

(** ** Retrieval, re-ranking and answer synthesis (lines 129-182) *)

(** [CROSS_ENCODER_MODEL.predict(pairs)] *)
Definition cross_encoder_predict (caps : Capabilities) (pairs : list (string * string))
    : M (list Z) :=
  record_call (CallCrossEncoder pairs);;
  lift_result (predict caps pairs).

(** [rerank_docs(inputs)] with [inputs['question'] = query] and
    [inputs['context'] = docs] (lines 142-149). *)
Definition rerank_docs (caps : Capabilities) (query : string) (docs : list Document)
    : M (list Document) :=
  let pairs := (fun doc => (query, page_content doc)) <$> docs in
  scores ← cross_encoder_predict caps pairs;
  let doc_scores := PyList.zip docs scores in
  let doc_scores := PyList.sort_reverse snd doc_scores in
  mret (fst <$> take 5 doc_scores).

(** The candidates paired with their scores, best first (lines 147-148). *)
Definition ranked (docs : list Document) (scores : list Z) : list (Document * Z) :=
  PyList.sort_reverse snd (PyList.zip docs scores).

Definition rag_prompt (context question : string) : string :=
  LF +:+ "        You are a helpful assistant. Answer the user's question based ONLY on the following context."
  +:+ LF +:+ "        If the context does not contain the answer, state that you don't have enough information."
  +:+ LF +:+ LF +:+ "        CONTEXT:" +:+ LF +:+ "        " +:+ context
  +:+ LF +:+ LF +:+ "        QUESTION:" +:+ LF +:+ "        " +:+ question
  +:+ LF +:+ LF +:+ "        ANSWER:" +:+ LF +:+ "        ".

(** The chain [create_rag_chain] returns: the store handle its retriever
    closes over, and the key of its language model. *)
Record RagChain : Type := mkRagChain {
  chain_vector_store : string;
  chain_api_key : string
}.

Definition create_rag_chain (caps : Capabilities) (filename api_key : string) : M RagChain :=
  let collection_name := sanitize_filename_for_collection filename in
  vector_store ← Chroma caps collection_name;
  mret (mkRagChain vector_store api_key).

(** [rag_chain.invoke(query)]: retrieve 25, re-rank, join the contents with
    blank lines, fill the prompt, ask the model, parse to a string. *)
Definition rag_chain_invoke (caps : Capabilities) (rag_chain : RagChain) (query : string)
    : M string :=
  context ← retriever_invoke caps (chain_vector_store rag_chain) 25 query;
  context ← rerank_docs caps query context;
  let context_text := PyStr.join (LF +:+ LF) (page_content <$> context) in
  let prompt := rag_prompt context_text query in
  record_call (CallChatLLM prompt);;
  lift_result (chat_llm caps prompt (chain_api_key rag_chain)).

(** ** Deletion (lines 186-224) *)

(** [[doc_id for i, doc_id in enumerate(ids) if metadatas[i].get('source') == filename]],
    the enumeration starting at [i]. *)
Fixpoint select_ids (filename : string) (metadatas : list (gmap string string))
    (i : nat) (ids : list string) : result (list string) :=
  match ids with
  | [] => Ok []
  | doc_id :: rest =>
      match metadatas !! i with
      | None => Raise (Exception "list index out of range")
      | Some md =>
          match select_ids filename metadatas (S i) rest with
          | Raise e => Raise e
          | Ok selected =>
              if decide (md !! "source" = Some filename)
              then Ok (doc_id :: selected) else Ok selected
          end
      end
  end.

Definition delete_document_vectors (caps : Capabilities) (filename : string) : M PyValue :=
  let collection_name := sanitize_filename_for_collection filename in
  try_except
    (vector_store ← Chroma caps collection_name;
     all_docs ← get_metadatas caps vector_store;
     match ids all_docs with
     | [] =>
         print ("No vectors found for document: " +:+ filename +:+ " in collection "
                +:+ collection_name +:+ ". Nothing to delete.");;
         mret PyNone
     | _ :: _ =>
         ids_to_delete ← lift_result
           (select_ids filename (metadatas all_docs) 0 (ids all_docs));
         match ids_to_delete with
         | _ :: _ =>
             print ("Found " +:+ pretty (length ids_to_delete)
                    +:+ " vectors to delete for document: " +:+ filename);;
             delete_ids caps vector_store ids_to_delete;;
             persist caps vector_store;;
             print ("Successfully deleted vectors for " +:+ filename +:+ ".");;
             mret PyNone
         | [] =>
             print ("No vectors specifically matching source '" +:+ filename
                    +:+ "' found for deletion.");;
             mret PyNone
         end
     end)
    (fun e =>
       print ("An error occurred while trying to delete vectors for " +:+ filename
              +:+ ": " +:+ exn_msg e);;
       mret PyNone).

(** ** The HTTP endpoints ([api.py]) *)

Inductive HttpResponse : Type :=
| JSONResponse (status_code : nat) (body : list (string * string))
| HTTPException (status_code : nat) (detail : string).

Definition Endpoint : Type := World -> HttpResponse * World.

(** [POST /upload/] (lines 41-65) *)
Definition upload_file (caps : Capabilities) (gemini_api_key : string)
    (file_filename file_bytes : string) : Endpoint :=
  fun w =>
    let file_path := os_path_join UPLOAD_DIRECTORY file_filename in
    if os_path_exists w file_path
    then (HTTPException 409 "File with this name already exists.", w)
    else
      match write_file caps file_path file_bytes w with
      | (Raise e, w1) => (HTTPException 500 ("Error saving file: " +:+ exn_msg e), w1)
      | (Ok _, w1) =>
          match process_and_store_document caps file_path file_filename gemini_api_key w1 with
          | (Raise e, w2) =>
              match os_remove file_path w2 with
              | (Raise e', w3) => (HTTPException 500 "Internal Server Error", w3)
              | (Ok _, w3) =>
                  (HTTPException 500
                     ("Failed to process and ingest document: " +:+ exn_msg e), w3)
              end
          | (Ok _, w2) =>
              (JSONResponse 201
                 [("filename", file_filename);
                  ("status", "Successfully uploaded and processed.")], w2)
          end
      end.

(** [POST /query/{filename}] (lines 68-83) *)
Definition query_document (caps : Capabilities) (filename query gemini_api_key : string)
    : Endpoint :=
  fun w =>
    let file_path := os_path_join UPLOAD_DIRECTORY filename in
    if negb (os_path_exists w file_path)
    then (HTTPException 404 "Document not found.", w)
    else
      match (rag_chain ← create_rag_chain caps filename gemini_api_key;
             rag_chain_invoke caps rag_chain query) w with
      | (Ok answer, w1) =>
          (JSONResponse 200
             [("filename", filename); ("query", query); ("answer", answer)], w1)
      | (Raise e, w1) =>
          (HTTPException 500 ("Error during query processing: " +:+ exn_msg e), w1)
      end.

(** [DELETE /documents/{filename}] (lines 94-114) *)
Definition delete_document (caps : Capabilities) (filename : string) : Endpoint :=
  fun w =>
    let file_path := os_path_join UPLOAD_DIRECTORY filename in
    if negb (os_path_exists w file_path)
    then (HTTPException 404 "File not found.", w)
    else
      match (os_remove file_path;; delete_document_vectors caps filename) w with
      | (Ok _, w1) =>
          (JSONResponse 200
             [("status", "ok");
              ("message", "File '" +:+ filename
                          +:+ "' and its vector data deleted successfully.")], w1)
      | (Raise e, w1) =>
          (HTTPException 500 ("Error during deletion process: " +:+ exn_msg e), w1)
      end.

(** ** Concrete collaborators and worlds for the examples *)

Definition empty_world : World := mkWorld ∅ ∅ [] [].

Definition report_path : string := "./uploaded_files/report.pdf".
Definition figure1_path : string := "./uploaded_files/figure-1.jpg".
Definition figure2_path : string := "./uploaded_files/figure-2.jpg".

(** Collaborators that work: "report.pdf" partitions into text, a table and
    two images, of which the second is extracted as an empty file; any other
    file is one block of text.  The table model refuses an empty key, the
    vision model an empty image.  The splitter gives the text as one chunk,
    the cross-encoder scores a candidate by the length of its text, search
    gives the first [k] entries. *)
Definition example_caps : Capabilities := {|
  partition := fun file_path bytes =>
    if decide (file_path = report_path)
    then Ok ([OtherElement "Intro"; Table "<table><tr><td>1</td></tr></table>";
              UnstructuredImage figure1_path; UnstructuredImage figure2_path;
              OtherElement "End"],
             <[figure1_path := "JPEG"]> (<[figure2_path := ""]> ∅))
    else Ok ([OtherElement bytes], ∅);
  table_llm := fun prompt api_key =>
    if decide (api_key = "") then Raise (Exception "API key not valid")
    else Ok "A table with one column and one row.";
  vision_llm := fun image_bytes api_key =>
    if decide (image_bytes = "") then Raise (Exception "cannot identify image file")
    else Ok "A chart.";
  split_text := fun chunk_size chunk_overlap text =>
    if decide (text = "") then [] else [text];
  similarity_search := fun entries query k => take k (snd <$> map_to_list entries);
  predict := fun pairs => Ok ((fun p => Z.of_nat (String.length (snd p))) <$> pairs);
  chat_llm := fun prompt api_key => Ok "I don't have enough information.";
  store_fault := fun _ => None;
  save_fault := fun _ => None
|}.

(** The same collaborators with the vector store down. *)
Definition store_down_caps : Capabilities := {|
  partition := partition example_caps;
  table_llm := table_llm example_caps;
  vision_llm := vision_llm example_caps;
  split_text := split_text example_caps;
  similarity_search := similarity_search example_caps;
  predict := predict example_caps;
  chat_llm := chat_llm example_caps;
  store_fault := fun _ => Some (Exception "Could not connect to the vector store");
  save_fault := save_fault example_caps
|}.

(** The same collaborators with a cross-encoder that raises on an empty
    batch of pairs. *)
Definition strict_encoder_caps : Capabilities := {|
  partition := partition example_caps;
  table_llm := table_llm example_caps;
  vision_llm := vision_llm example_caps;
  split_text := split_text example_caps;
  similarity_search := similarity_search example_caps;
  predict := fun pairs =>
    match pairs with
    | [] => Raise (Exception "list index out of range")
    | _ :: _ => predict example_caps pairs
    end;
  chat_llm := chat_llm example_caps;
  store_fault := store_fault example_caps;
  save_fault := save_fault example_caps
|}.

Definition text_doc (content : string) : Document :=
  mkDocument content (source_type_metadata "notes.txt" "text").

(** Six candidates in Stage-1 order; their example scores are 2 1 3 2 3 1. *)
Definition six_candidates : list Document :=
  [text_doc "aa"; text_doc "b"; text_doc "ccc"; text_doc "dd"; text_doc "eee";
   text_doc "f"].

Definition two_candidates : list Document := [text_doc "b"; text_doc "ccc"].

(** A world where "report.pdf" has been saved and nothing else done. *)
Definition saved_world : World :=
  mkWorld (<[report_path := "PDFBYTES"]> ∅) ∅ [] [].

(** The world after "report.pdf" has been uploaded to an empty system. *)
Definition uploaded_world : World :=
  snd (upload_file example_caps "key" "report.pdf" "PDFBYTES" empty_world).


(** The same collaborators with a store that takes documents but fails to
    persist. *)
Definition persist_down_caps : Capabilities := {|
  partition := partition example_caps;
  table_llm := table_llm example_caps;
  vision_llm := vision_llm example_caps;
  split_text := split_text example_caps;
  similarity_search := similarity_search example_caps;
  predict := predict example_caps;
  chat_llm := chat_llm example_caps;
  store_fault := fun op =>
    match op with
    | OpPersist _ => Some (Exception "disk full")
    | _ => None
    end;
  save_fault := save_fault example_caps
|}.


(** The same collaborators on a full disk: the file is created, the copy
    fails after three bytes. *)
Definition copy_down_caps : Capabilities := {|
  partition := partition example_caps;
  table_llm := table_llm example_caps;
  vision_llm := vision_llm example_caps;
  split_text := split_text example_caps;
  similarity_search := similarity_search example_caps;
  predict := predict example_caps;
  chat_llm := chat_llm example_caps;
  store_fault := store_fault example_caps;
  save_fault := fun _ =>
    Some (CopyFails 3 (Exception "[Errno 28] No space left on device"))
|}.

(** The elements and image files of "report.pdf". *)
Definition report_elements : list Element :=
  [OtherElement "Intro"; Table "<table><tr><td>1</td></tr></table>";
   UnstructuredImage figure1_path; UnstructuredImage figure2_path;
   OtherElement "End"].

Definition report_images : gmap string string :=
  <[figure1_path := "JPEG"]> (<[figure2_path := ""]> ∅).

(** ** Lemmas on strings *)

Lemma replace_single_char (o n : ascii) (s : string) :
  PyStr.replace (String o "") (String n "") s
  = PyStr.map (fun c => if decide (c = o) then n else c) s.
Proof.
  unfold PyStr.replace. induction s as [|c s IH]; [done|].
  cbn [PyStr.replace_go PyStr.map String.prefix String.length Nat.sub].
  destruct (Ascii.ascii_dec o c) as [->|Hne].
  - replace (String.prefix "" s) with true by (by destruct s).
    rewrite decide_True by done. by rewrite IH.
  - rewrite decide_False by congruence. by rewrite IH.
Qed.

Lemma pystr_map_map (f g : ascii -> ascii) (s : string) :
  PyStr.map f (PyStr.map g s) = PyStr.map (fun c => f (g c)) s.
Proof. induction s as [|c s IH]; [done|]. cbn. by rewrite IH. Qed.

Lemma pystr_map_ext (f g : ascii -> ascii) (s : string) :
  (forall c, f c = g c) -> PyStr.map f s = PyStr.map g s.
Proof. intros E. induction s as [|c s IH]; [done|]. cbn. by rewrite E, IH. Qed.

Lemma sanitize_is_name_by_rule (filename : string) :
  sanitize_filename_for_collection filename = name_by_rule filename.
Proof.
  unfold sanitize_filename_for_collection, name_by_rule.
  rewrite !replace_single_char, pystr_map_map. f_equal.
  apply pystr_map_ext. intros c. unfold underscore_if_separator.
  repeat case_decide; congruence.
Qed.

Lemma string_app_inj_l (p s t : string) : p +:+ s = p +:+ t -> s = t.
Proof. induction p as [|c p IH]; cbn; [done|]. intros [= H]. auto. Qed.

Lemma underscore_if_separator_eq (a b : ascii) :
  underscore_if_separator a = underscore_if_separator b <-> confusable a b.
Proof.
  unfold underscore_if_separator, confusable, is_blank_like.
  repeat case_decide; subst; intuition congruence.
Qed.

Lemma pystr_map_eq_Forall2 (f : ascii -> ascii) (s t : string) :
  PyStr.map f s = PyStr.map f t
  <-> Forall2 (fun a b => f a = f b) (PyStr.to_list s) (PyStr.to_list t).
Proof.
  revert t. induction s as [|a s IH]; intros [|b t]; cbn; split; intros H;
    try done; try (by inversion H).
  - injection H as H1 H2. constructor; [done|]. by apply IH.
  - inversion H as [|? ? ? ? H1 H2]; subst. rewrite H1. f_equal. by apply IH.
Qed.

(** ** Theorems: collection naming *)

(** C7: naming is a function of the filename alone and equals the rule
    "replace every space and every period by an underscore, prepend rag_";
    on "My Report.pdf" it gives "rag_My_Report_pdf". *)
Theorem C7_naming_rule :
  (forall f : string, sanitize_filename_for_collection f = name_by_rule f)
  /\ (forall f g : string,
        f = g -> sanitize_filename_for_collection f
                 = sanitize_filename_for_collection g)
  /\ sanitize_filename_for_collection "My Report.pdf" = "rag_My_Report_pdf".
Proof.
  split; [apply sanitize_is_name_by_rule|].
  split; [by intros f g ->|reflexivity].
Qed.

Lemma C7_naming_rule_witness :
  sanitize_filename_for_collection "My Report.pdf"
  = sanitize_filename_for_collection "My Report.pdf"
  /\ sanitize_filename_for_collection "My Report.pdf" = name_by_rule "My Report.pdf".
Proof.
  split.
  - exact (proj1 (proj2 C7_naming_rule) "My Report.pdf" "My Report.pdf" eq_refl).
  - exact (proj1 C7_naming_rule "My Report.pdf").
Defined.

(** C8, as stated, fails: three distinct filenames share one collection
    identifier. *)
Lemma C8_collision :
  "a b.pdf" <> "a_b.pdf" /\ "a b.pdf" <> "a.b.pdf"
  /\ sanitize_filename_for_collection "a b.pdf"
     = sanitize_filename_for_collection "a_b.pdf"
  /\ sanitize_filename_for_collection "a b.pdf"
     = sanitize_filename_for_collection "a.b.pdf"
  /\ ~ (forall f g : string,
          f <> g -> sanitize_filename_for_collection f
                    <> sanitize_filename_for_collection g).
Proof.
  repeat split; try done.
  intros H. by apply (H "a b.pdf" "a_b.pdf").
Qed.

(** C8, amended: two filenames get the same collection identifier exactly
    when they have the same length and, position by position, carry the
    same character or two characters among space, period and underscore. *)
Theorem C8_collisions_characterised (f g : string) :
  sanitize_filename_for_collection f = sanitize_filename_for_collection g
  <-> Forall2 confusable (PyStr.to_list f) (PyStr.to_list g).
Proof.
  rewrite !sanitize_is_name_by_rule. unfold name_by_rule.
  split.
  - intros H%string_app_inj_l. apply pystr_map_eq_Forall2 in H.
    eapply Forall2_impl; [exact H|]. intros a b. apply underscore_if_separator_eq.
  - intros H. f_equal. apply pystr_map_eq_Forall2.
    eapply Forall2_impl; [exact H|]. intros a b. apply underscore_if_separator_eq.
Qed.

Lemma C8_collisions_characterised_witness :
  Forall2 confusable (PyStr.to_list "a b.pdf") (PyStr.to_list "a_b.pdf")
  /\ sanitize_filename_for_collection "a b.pdf"
     = sanitize_filename_for_collection "a_b.pdf".
Proof.
  assert (Forall2 confusable (PyStr.to_list "a b.pdf") (PyStr.to_list "a_b.pdf")) as H.
  { cbn. constructor; [by left|].
    constructor; [right; unfold is_blank_like; auto|].
    repeat (constructor; [by left|]). constructor. }
  split; [exact H|].
  exact (proj2 (C8_collisions_characterised "a b.pdf" "a_b.pdf") H).
Defined.

(** ** Lemmas on the stable descending sort *)

Section sort_reverse.
Context {A : Type} (key : A -> Z).

Lemma insert_reverse_Permutation (x : A) (l : list A) :
  PyList.insert_reverse key x l ≡ₚ x :: l.
Proof.
  induction l as [|y l IH]; cbn; [done|].
  destruct (key x <? key y)%Z; [|done].
  rewrite IH. apply Permutation_swap.
Qed.

Lemma sort_reverse_Permutation (l : list A) : PyList.sort_reverse key l ≡ₚ l.
Proof.
  induction l as [|x l IH]; cbn; [done|].
  rewrite insert_reverse_Permutation. by f_equiv.
Qed.

Lemma sort_reverse_length (l : list A) :
  length (PyList.sort_reverse key l) = length l.
Proof. by rewrite sort_reverse_Permutation. Qed.

Lemma insert_reverse_descending (x : A) (l : list A) :
  StronglySorted (descending key) l ->
  StronglySorted (descending key) (PyList.insert_reverse key x l).
Proof.
  induction 1 as [|y l Hl IH Hy]; cbn.
  - repeat constructor.
  - destruct (Z.ltb_spec (key x) (key y)) as [Hlt|Hge].
    + constructor; [done|].
      rewrite insert_reverse_Permutation. constructor; [|done].
      unfold descending. lia.
    + constructor; [by constructor|]. constructor; [done|].
      eapply Forall_impl; [exact Hy|]. unfold descending. intros z Hz. cbn in Hz. lia.
Qed.

Lemma sort_reverse_descending (l : list A) :
  StronglySorted (descending key) (PyList.sort_reverse key l).
Proof.
  induction l as [|x l IH]; cbn; [constructor|].
  by apply insert_reverse_descending.
Qed.

(** Stability: among the elements of one key value, insertion puts the
    new element first and leaves the others as they were. *)
Lemma filter_insert_reverse (s : Z) (x : A) (l : list A) :
  filter (fun a => key a = s) (PyList.insert_reverse key x l)
  = filter (fun a => key a = s) (x :: l).
Proof.
  induction l as [|y l IH]; cbn [PyList.insert_reverse]; [done|].
  destruct (Z.ltb_spec (key x) (key y)) as [Hlt|Hge]; [|done].
  rewrite (filter_cons _ y), IH, !(filter_cons _ x), (filter_cons _ y).
  repeat case_decide; try done. lia.
Qed.

Lemma filter_sort_reverse (s : Z) (l : list A) :
  filter (fun a => key a = s) (PyList.sort_reverse key l)
  = filter (fun a => key a = s) l.
Proof.
  induction l as [|x l IH]; [done|].
  cbn [PyList.sort_reverse foldr]. rewrite filter_insert_reverse, !filter_cons.
  fold (PyList.sort_reverse key l). by rewrite IH.
Qed.

Lemma descending_take_drop (n : nat) (l : list A) (x y : A) :
  StronglySorted (descending key) l ->
  x ∈ take n l -> y ∈ drop n l -> (key y <= key x)%Z.
Proof.
  intros Hs Hx Hy. rewrite <-(take_drop n l) in Hs.
  exact (StronglySorted_app_1_elem_of _ _ _ _ _ Hs Hx Hy).
Qed.

Lemma descending_take (n : nat) (l : list A) :
  StronglySorted (descending key) l -> StronglySorted (descending key) (take n l).
Proof.
  intros Hs. rewrite <-(take_drop n l) in Hs.
  by apply StronglySorted_app_1_l in Hs.
Qed.
End sort_reverse.

Lemma zip_length {A B : Type} (xs : list A) (ys : list B) :
  length ys = length xs -> length (PyList.zip xs ys) = length xs.
Proof.
  revert ys. induction xs as [|x xs IH]; intros [|y ys]; cbn; try done.
  intros [= H]. by rewrite IH.
Qed.

Lemma zip_fst {A B : Type} (xs : list A) (ys : list B) :
  length ys = length xs -> (PyList.zip xs ys).*1 = xs.
Proof.
  revert ys. induction xs as [|x xs IH]; intros [|y ys]; cbn; try done.
  intros [= H]. by rewrite IH.
Qed.

(** ** Lemmas on re-ranking *)

Lemma rerank_docs_run (caps : Capabilities) (query : string) (docs : list Document)
    (scores : list Z) (w : World) :
  predict caps ((fun doc => (query, page_content doc)) <$> docs) = Ok scores ->
  rerank_docs caps query docs w
  = (Ok ((take 5 (ranked docs scores)).*1),
     add_call (CallCrossEncoder ((fun doc => (query, page_content doc)) <$> docs)) w).
Proof.
  intros Hp. unfold rerank_docs, cross_encoder_predict, record_call, modify_world,
    lift_result, mbind, M_bind, mret, M_ret. by rewrite Hp.
Qed.

(** ** Theorems: re-ranking *)

(** Six candidates scored 2 1 3 2 3 1: the five kept are the two of score
    3, the two of score 2 and the first of score 1, each group in Stage-1
    order. *)
Example rerank_six_candidates :
  fst (rerank_docs example_caps "q" six_candidates empty_world)
  = Ok [text_doc "ccc"; text_doc "eee"; text_doc "aa"; text_doc "dd"; text_doc "b"].
Proof. reflexivity. Qed.

(** C2: with at least five Stage-1 candidates, each scored by the
    cross-encoder, re-ranking returns exactly five of them; the five are in
    descending score order, none scores below an excluded candidate, and
    within every score value the candidates keep their Stage-1 order, the
    kept ones coming before the excluded ones. *)
Theorem C2_rerank_top_five (caps : Capabilities) (query : string)
    (docs : list Document) (scores : list Z) (w : World) :
  predict caps ((fun doc => (query, page_content doc)) <$> docs) = Ok scores ->
  length scores = length docs ->
  5 <= length docs ->
  exists kept excluded : list (Document * Z),
    fst (rerank_docs caps query docs w) = Ok (kept.*1)
    /\ length kept = 5
    /\ kept ++ excluded ≡ₚ PyList.zip docs scores
    /\ (forall x y, x ∈ kept -> y ∈ excluded -> (snd y <= snd x)%Z)
    /\ StronglySorted (descending snd) kept
    /\ (forall s : Z,
          filter (fun p => snd p = s) kept ++ filter (fun p => snd p = s) excluded
          = filter (fun p => snd p = s) (PyList.zip docs scores)).
Proof.
  intros Hp Hlen H5.
  exists (take 5 (ranked docs scores)), (drop 5 (ranked docs scores)).
  pose proof (sort_reverse_descending snd (PyList.zip docs scores)) as Hs.
  fold (ranked docs scores) in Hs.
  split; [by rewrite (rerank_docs_run _ _ _ _ _ Hp)|].
  split.
  { rewrite length_take_le; [done|].
    unfold ranked. rewrite sort_reverse_length, zip_length; done. }
  split; [by rewrite take_drop; apply sort_reverse_Permutation|].
  split; [intros x y; by apply descending_take_drop|].
  split; [by apply descending_take|].
  intros s. rewrite <-filter_app, take_drop. apply filter_sort_reverse.
Qed.

Lemma C2_rerank_top_five_witness :
  exists kept excluded : list (Document * Z),
    fst (rerank_docs example_caps "q" six_candidates empty_world) = Ok (kept.*1)
    /\ length kept = 5
    /\ kept ++ excluded ≡ₚ PyList.zip six_candidates [2; 1; 3; 2; 3; 1]%Z
    /\ (forall x y, x ∈ kept -> y ∈ excluded -> (snd y <= snd x)%Z)
    /\ StronglySorted (descending snd) kept
    /\ (forall s : Z,
          filter (fun p => snd p = s) kept ++ filter (fun p => snd p = s) excluded
          = filter (fun p => snd p = s)
              (PyList.zip six_candidates [2; 1; 3; 2; 3; 1]%Z)).
Proof.
  apply (C2_rerank_top_five example_caps "q" six_candidates [2; 1; 3; 2; 3; 1]%Z
           empty_world); [reflexivity | reflexivity | cbn; lia].
Defined.

(** C10, as stated, fails.  Re-ranking sorts, so what it returns is in
    general not a sublist of the Stage-1 list: of the two candidates "b"
    and "ccc", scored 1 and 3, it returns "ccc" before "b".  And it does
    not look at the number of candidates before it calls the
    cross-encoder: with none, the empty batch goes to the cross-encoder,
    and where that raises on an empty batch re-ranking raises. *)
Lemma C10_reordered_not_sublist :
  fst (rerank_docs example_caps "q" two_candidates empty_world)
  = Ok [text_doc "ccc"; text_doc "b"]
  /\ ~ sublist [text_doc "ccc"; text_doc "b"] two_candidates
  /\ fst (rerank_docs strict_encoder_caps "q" [] empty_world)
     = Raise (Exception "list index out of range")
  /\ ~ (forall (caps : Capabilities) (query : string) (docs : list Document) (w : World),
          length docs < 5 ->
          exists out : list Document,
            fst (rerank_docs caps query docs w) = Ok out
            /\ sublist out docs
            /\ length out = min (length docs) 5).
Proof.
  assert (~ sublist [text_doc "ccc"; text_doc "b"] two_candidates) as Hnot.
  { intros H. apply sublist_cons_r in H as [H|(l & Heq & _)].
    - apply sublist_length in H. cbn in H. lia.
    - by apply (f_equal (fmap page_content)) in Heq. }
  split; [reflexivity|]. split; [exact Hnot|]. split; [reflexivity|].
  intros H.
  destruct (H example_caps "q" two_candidates empty_world) as (out & Hout & Hsub & _);
    [cbn; lia|].
  injection Hout as <-. exact (Hnot Hsub).
Qed.

(** C10, amended: whatever the number n of Stage-1 candidates (zero
    included), re-ranking hands the batch of pairs to the cross-encoder,
    raises exactly the cross-encoder's error when that raises, and, when
    scores come back one per candidate, returns min(n, 5) of the
    candidates and nothing else, in descending score order, those of one
    score being the first of that score in Stage-1 order; with five or
    fewer it returns all of them. *)
Theorem C10_rerank_short_list (caps : Capabilities) (query : string)
    (docs : list Document) (w : World) :
  let pairs : list (string * string) := (fun doc => (query, page_content doc)) <$> docs in
  calls (snd (rerank_docs caps query docs w)) = calls w ++ [CallCrossEncoder pairs]
  /\ (forall e : exn,
        predict caps pairs = Raise e -> fst (rerank_docs caps query docs w) = Raise e)
  /\ (forall scores : list Z,
        predict caps pairs = Ok scores ->
        length scores = length docs ->
        exists kept : list (Document * Z),
          fst (rerank_docs caps query docs w) = Ok (kept.*1)
          /\ length (kept.*1) = min (length docs) 5
          /\ kept.*1 ⊆+ docs
          /\ kept ⊆+ PyList.zip docs scores
          /\ StronglySorted (descending snd) kept
          /\ (forall s : Z,
                filter (fun p => snd p = s) kept
                `prefix_of` filter (fun p => snd p = s) (PyList.zip docs scores))
          /\ (length docs <= 5 -> kept.*1 ≡ₚ docs)).
Proof.
  intros pairs. split; [|split].
  - unfold rerank_docs, cross_encoder_predict, record_call, modify_world,
      lift_result, mbind, M_bind, mret, M_ret. fold pairs.
    by destruct (predict caps pairs).
  - intros e Hp.
    unfold rerank_docs, cross_encoder_predict, record_call, modify_world,
      lift_result, mbind, M_bind, mret, M_ret. fold pairs. by rewrite Hp.
  - intros scores Hp Hlen.
    exists (take 5 (ranked docs scores)).
    pose proof (sort_reverse_descending snd (PyList.zip docs scores)) as Hs.
    fold (ranked docs scores) in Hs.
    assert (ranked docs scores ≡ₚ PyList.zip docs scores) as Hperm
      by apply sort_reverse_Permutation.
    assert (take 5 (ranked docs scores) ⊆+ PyList.zip docs scores) as Hsub.
    { rewrite <-Hperm. apply submseteq_take. }
    split; [by rewrite (rerank_docs_run _ _ _ _ _ Hp)|].
    split.
    { rewrite length_fmap, length_take. unfold ranked.
      rewrite sort_reverse_length, zip_length by done. lia. }
    split.
    { rewrite <-(zip_fst docs scores Hlen) at 2. by apply fmap_submseteq. }
    split; [done|].
    split; [by apply descending_take|].
    split.
    { intros s. exists (filter (fun p => snd p = s) (drop 5 (ranked docs scores))).
      rewrite <-filter_app, take_drop. symmetry. apply filter_sort_reverse. }
    intros Hle. rewrite take_ge.
    + rewrite Hperm. by rewrite zip_fst.
    + unfold ranked. rewrite sort_reverse_length, zip_length by done. done.
Qed.

Lemma C10_rerank_short_list_witness :
  (exists kept : list (Document * Z),
     fst (rerank_docs example_caps "q" two_candidates empty_world) = Ok (kept.*1)
     /\ length (kept.*1) = min (length two_candidates) 5
     /\ kept.*1 ⊆+ two_candidates
     /\ kept ⊆+ PyList.zip two_candidates [1; 3]%Z
     /\ StronglySorted (descending snd) kept
     /\ (forall s : Z,
           filter (fun p => snd p = s) kept
           `prefix_of` filter (fun p => snd p = s) (PyList.zip two_candidates [1; 3]%Z))
     /\ (length two_candidates <= 5 -> kept.*1 ≡ₚ two_candidates))
  /\ fst (rerank_docs strict_encoder_caps "q" [] empty_world)
     = Raise (Exception "list index out of range").
Proof.
  split.
  - apply (proj2 (proj2 (C10_rerank_short_list example_caps "q" two_candidates
                           empty_world)) [1; 3]%Z); reflexivity.
  - apply (proj1 (proj2 (C10_rerank_short_list strict_encoder_caps "q" [] empty_world))
             (Exception "list index out of range")).
    reflexivity.
Defined.

(** ** Lemmas on deletion *)

Lemma select_ids_entries (filename : string) (pre post : list (string * Document)) :
  select_ids filename ((fun e => metadata (snd e)) <$> (pre ++ post)) (length pre) (post.*1)
  = Ok ((filter (from_document filename) post).*1).
Proof.
  revert pre. induction post as [|e post IH]; intros pre; [done|].
  cbn [select_ids fmap list_fmap].
  rewrite list_lookup_fmap, lookup_app_r, Nat.sub_diag by done. cbn [lookup list_lookup fmap option_fmap option_map].
  specialize (IH (pre ++ [e])).
  replace ((pre ++ [e]) ++ post) with (pre ++ e :: post) in IH
    by (by rewrite <-app_assoc).
  replace (length (pre ++ [e])) with (S (length pre)) in IH
    by (rewrite length_app; cbn; lia).
  rewrite IH. rewrite filter_cons. unfold from_document at 2.
  by destruct (decide _).
Qed.

Lemma foldr_delete_selected (filename : string) (c : gmap string Document) :
  foldr delete c ((filter (from_document filename) (map_to_list c)).*1)
  = filter (fun e => ¬ from_document filename e) c.
Proof.
  apply map_eq. intros k.
  destruct (decide (k ∈ (filter (from_document filename) (map_to_list c)).*1)) as [Hin|Hout].
  - rewrite lookup_foldr_delete by done.
    apply list_elem_of_fmap in Hin as ([k' d] & -> & [Hf Hd%elem_of_map_to_list]%list_elem_of_filter).
    symmetry. apply map_lookup_filter_None. right. intros d' Hd'. cbn in *.
    assert (d' = d) as -> by congruence. tauto.
  - rewrite lookup_foldr_delete_not_elem_of by done.
    destruct (c !! k) as [d|] eqn:Hk.
    + symmetry. apply map_lookup_filter_Some. split; [done|].
      intros Hf. apply Hout. apply list_elem_of_fmap. exists (k, d). split; [done|].
      apply list_elem_of_filter. split; [done|]. by apply elem_of_map_to_list.
    + symmetry. apply map_lookup_filter_None. by left.
Qed.

Lemma lookup_get_or_create_collection name n cs :
  default ∅ (get_or_create_collection name cs !! n) = default ∅ (cs !! n).
Proof.
  unfold get_or_create_collection. destruct (cs !! name) eqn:E; [done|].
  destruct (decide (name = n)) as [->|]; [rewrite lookup_insert_eq, E | rewrite lookup_insert_ne]; done.
Qed.

Lemma filter_none_selected (filename : string) (c : gmap string Document) :
  filter (from_document filename) (map_to_list c) = [] ->
  filter (fun e => ¬ from_document filename e) c = c.
Proof.
  intros Hnone. apply map_filter_id. intros k d Hk Hf.
  assert ((k, d) ∈ filter (from_document filename) (map_to_list c)) as Hin.
  { apply list_elem_of_filter. split; [done|]. by apply elem_of_map_to_list. }
  rewrite Hnone in Hin. by apply elem_of_nil in Hin.
Qed.

Ltac world_simpl :=
  unfold collection_at;
  cbn [chroma fs stdout calls add_stdout add_call set_chroma set_fs];
  rewrite ?lookup_get_or_create_collection.

Ltac store_is_up :=
  match goal with
  | Ha : store_available ?caps, F : store_fault ?caps ?op = Some _ |- _ =>
      specialize (Ha op); congruence
  end.

Ltac finish_world :=
  repeat split; intros; world_simpl; first [store_is_up | by auto].

Lemma delete_document_vectors_outcome (caps : Capabilities) (filename : string) (w : World) :
  let name := sanitize_filename_for_collection filename in
  let c := collection_at w name in
  let c_rest := filter (fun e => ¬ from_document filename e) c in
  exists w',
    delete_document_vectors caps filename w = (Ok PyNone, w')
    /\ fs w' = fs w
    /\ (collection_at w' name = c \/ collection_at w' name = c_rest)
    /\ (store_available caps -> collection_at w' name = c_rest)
    /\ (forall other, other <> name -> collection_at w' other = collection_at w other).
Proof.
  intros name c c_rest.
  unfold delete_document_vectors, try_except, Chroma, get_metadatas, store_request,
    record_call, print, modify_world, get_world, raise, lift_result, mbind, M_bind, mret, M_ret.
  fold name. cbn beta iota.
  destruct (store_fault caps (OpOpen name)) as [e1|] eqn:F1.
  { eexists. split; [reflexivity|]. finish_world. }
  destruct (store_fault caps (OpGet name)) as [e2|] eqn:F2.
  { eexists. split; [reflexivity|]. finish_world. }
  world_simpl. fold (collection_at w name). fold c.
  cbn [ids metadatas].
  pose proof (select_ids_entries filename [] (map_to_list c)) as Hids.
  cbn [app length] in Hids. rewrite Hids. clear Hids.
  destruct ((filter (from_document filename) (map_to_list c)).*1)
    as [|id0 selected] eqn:Hsel.
  { apply fmap_nil_inv in Hsel.
    assert (c_rest = c) as Hrest by (by apply filter_none_selected).
    destruct ((map_to_list c).*1); eexists; (split; [reflexivity|]);
      rewrite Hrest; finish_world. }
  destruct ((map_to_list c).*1) as [|id1 others] eqn:Hids.
  { apply fmap_nil_inv in Hids. by rewrite Hids in Hsel. }
  unfold delete_ids, persist, store_request,
    record_call, print, modify_world, get_world, raise, lift_result, mbind, M_bind, mret, M_ret.
  cbn beta iota.
  destruct (store_fault caps (OpDelete name _)) as [e3|] eqn:F3.
  { eexists. split; [reflexivity|]. finish_world. }
  assert (forall cs : gmap string (gmap string Document),
            default ∅ (<[name := foldr delete (default ∅ (chroma w !! name))
                                   (id0 :: selected)]> cs !! name) = c_rest) as Hdel.
  { intros cs. rewrite lookup_insert_eq. cbn [default].
    change (default ∅ (chroma w !! name)) with c. rewrite <-Hsel.
    apply foldr_delete_selected. }
  assert (forall other v (cs : gmap string (gmap string Document)),
            other <> name ->
            default ∅ (<[name := v]> (get_or_create_collection name cs) !! other)
            = default ∅ (cs !! other)) as Hother.
  { intros other v cs Hne. rewrite lookup_insert_ne by done.
    apply lookup_get_or_create_collection. }
  destruct (store_fault caps (OpPersist name)) as [e4|] eqn:F4;
    (eexists; split; [reflexivity|]); world_simpl;
    (split; [done|]); (split; [by right|]); (split; [done|]);
    intros other Hne; by apply Hother.
Qed.

(** ** Theorems: deletion *)

(** C1: deletion by filename removes exactly the entries of the document's
    collection whose metadata source is the filename.  Whatever the store
    does, every entry whose source differs from the filename (an image
    description stored under its image path among them) is still there
    unchanged, nothing is added and no other collection changes; and when
    the store answers its requests, no entry with source equal to the
    filename is left: the collection is the old one restricted to the
    entries of other sources. *)
Theorem C1_delete_removes_exactly_matching (caps : Capabilities) (filename : string)
    (w : World) :
  let name := sanitize_filename_for_collection filename in
  let before := collection_at w name in
  let after := collection_at (snd (delete_document_vectors caps filename w)) name in
  (store_available caps ->
   after = filter (fun e => ¬ from_document filename e) before
   /\ (forall id d, after !! id = Some d -> metadata d !! "source" <> Some filename))
  /\ (forall id d, before !! id = Some d ->
        metadata d !! "source" <> Some filename -> after !! id = Some d)
  /\ (forall id d image_path,
        before !! id = Some d ->
        metadata d = source_type_metadata image_path "image_description" ->
        image_path <> filename -> after !! id = Some d)
  /\ (forall id d, after !! id = Some d -> before !! id = Some d)
  /\ (forall other, other <> name ->
        collection_at (snd (delete_document_vectors caps filename w)) other
        = collection_at w other).
Proof.
  intros name before after.
  destruct (delete_document_vectors_outcome caps filename w)
    as (w' & Hrun & _ & Hcases & Hrest & Hother).
  assert (after = collection_at w' name) as Hafter by (unfold after; by rewrite Hrun).
  fold name before in Hcases, Hrest.
  assert (forall id d, before !! id = Some d ->
            metadata d !! "source" <> Some filename -> after !! id = Some d) as Hkeep.
  { intros id d Hd Hsrc. rewrite Hafter.
    destruct Hcases as [-> | ->]; [done|]. by apply map_lookup_filter_Some. }
  split.
  { intros Hup. rewrite Hafter, (Hrest Hup). split; [done|].
    intros id d [_ Hd]%map_lookup_filter_Some. exact Hd. }
  split; [done|].
  split.
  { intros id d image_path Hd Hmd Hne. apply Hkeep; [done|].
    rewrite Hmd. unfold source_type_metadata. rewrite lookup_insert_eq. congruence. }
  split.
  { intros id d. rewrite Hafter.
    destruct Hcases as [-> | ->]; [done|]. by intros [Hd _]%map_lookup_filter_Some. }
  intros other Hne. rewrite Hrun. by apply Hother.
Qed.

Lemma C1_delete_removes_exactly_matching_witness :
  store_available example_caps
  /\ (let name := sanitize_filename_for_collection "report.pdf" in
      let before := collection_at uploaded_world name in
      let after :=
        collection_at
          (snd (delete_document_vectors example_caps "report.pdf" uploaded_world)) name in
      (after = filter (fun e => ¬ from_document "report.pdf" e) before
       /\ (forall id d,
             after !! id = Some d -> metadata d !! "source" <> Some "report.pdf"))
      /\ size before = 3 /\ size after = 1
      /\ (forall id d, before !! id = Some d ->
            metadata d !! "source" <> Some "report.pdf" -> after !! id = Some d)).
Proof.
  assert (store_available example_caps) as Hup by (intros op; reflexivity).
  split; [exact Hup|].
  intros name before after.
  destruct (C1_delete_removes_exactly_matching example_caps "report.pdf" uploaded_world)
    as (Hgone & Hkeep & _).
  split; [exact (Hgone Hup)|].
  split; [reflexivity|]. split; [reflexivity|].
  exact Hkeep.
Defined.




(** ** Lemmas on ingestion *)

Ltac unfold_monad :=
  unfold store_request, record_call, print, modify_world, get_world, raise,
    lift_result, try_except, mbind, M_bind, mret, M_ret.

Lemma process_element_ok (caps : Capabilities) (filename api_key : string)
    (element : Element) (docs : list Document) (raw_text : string) (w : World) :
  table_ok caps api_key element ->
  exists w',
    process_element caps filename api_key element docs raw_text w
    = (Ok (docs ++ element_documents caps (fs w) filename api_key element,
           accumulate_text raw_text element), w')
    /\ same_data w w'.
Proof.
  intros Hok. destruct element as [table_html|image_path|text];
    cbn [process_element element_documents accumulate_text].
  - destruct Hok as [summary Hs].
    unfold summarize_table. unfold_monad. rewrite Hs.
    eexists. split; [reflexivity|]. by split.
  - unfold read_file, get_image_description. unfold_monad.
    destruct (fs w !! image_path) as [img_bytes|].
    + destruct (vision_llm caps img_bytes api_key) as [description|e];
        (eexists; split; [by rewrite ?app_nil_r|]; by split).
    + eexists. split; [by rewrite app_nil_r|]. by split.
  - unfold_monad. eexists. split; [by rewrite app_nil_r|]. by split.
Qed.

Lemma process_elements_ok (caps : Capabilities) (filename api_key : string)
    (elements : list Element) (docs : list Document) (raw_text : string) (w : World) :
  Forall (table_ok caps api_key) elements ->
  exists w',
    process_elements caps filename api_key elements docs raw_text w
    = (Ok (docs ++ (elements ≫= element_documents caps (fs w) filename api_key),
           foldl accumulate_text raw_text elements), w')
    /\ same_data w w'.
Proof.
  intros Hok. revert docs raw_text w.
  induction Hok as [|element rest Hel Hrest IH]; intros docs raw_text w.
  - cbn. unfold_monad. eexists. split; [by rewrite app_nil_r|]. by split.
  - cbn [process_elements].
    destruct (process_element_ok caps filename api_key element docs raw_text w Hel)
      as (w1 & Hrun1 & Hfs1 & Hch1).
    unfold mbind, M_bind. rewrite Hrun1. cbn [fst snd].
    destruct (IH (docs ++ element_documents caps (fs w) filename api_key element)
                 (accumulate_text raw_text element) w1) as (w2 & Hrun2 & Hfs2 & Hch2).
    exists w2. rewrite Hrun2, Hfs1. cbn [mbind list_bind mjoin foldl].
    split; [by rewrite <-app_assoc|].
    split; congruence.
Qed.

Lemma process_elements_table_failure (caps : Capabilities) (filename api_key : string)
    (before after : list Element) (table_html : string) (e : exn)
    (docs : list Document) (raw_text : string) (w : World) :
  Forall (table_ok caps api_key) before ->
  table_llm caps (table_prompt table_html) api_key = Raise e ->
  exists w',
    process_elements caps filename api_key (before ++ Table table_html :: after)
      docs raw_text w = (Raise e, w')
    /\ same_data w w'.
Proof.
  intros Hok Hfail. revert docs raw_text w.
  induction Hok as [|element rest Hel Hrest IH]; intros docs raw_text w.
  - cbn [app process_elements process_element]. unfold summarize_table. unfold_monad.
    rewrite Hfail. eexists. split; [reflexivity|]. by split.
  - cbn [app process_elements].
    destruct (process_element_ok caps filename api_key element docs raw_text w Hel)
      as (w1 & Hrun1 & Hfs1 & Hch1).
    unfold mbind, M_bind. rewrite Hrun1. cbn [fst snd].
    destruct (IH (docs ++ element_documents caps (fs w) filename api_key element)
                 (accumulate_text raw_text element) w1) as (w2 & Hrun2 & Hfs2 & Hch2).
    exists w2. split; [done|]. split; congruence.
Qed.

Lemma add_entries_documents (docs : list Document) (c : gmap string Document) :
  (map_to_list (foldl add_entry c docs)).*2 ≡ₚ docs ++ (map_to_list c).*2.
Proof.
  revert c. induction docs as [|doc docs IH]; intros c; [done|].
  cbn [foldl]. rewrite IH. unfold add_entry.
  rewrite map_to_list_insert by apply fresh_string_fresh.
  cbn [fmap list_fmap snd app].
  by rewrite Permutation_middle.
Qed.

Lemma process_and_store_document_ok (caps : Capabilities)
    (file_path filename api_key bytes : string) (elements : list Element)
    (extracted : gmap string string) (w : World) :
  fs w !! file_path = Some bytes ->
  partition caps file_path bytes = Ok (elements, extracted) ->
  Forall (table_ok caps api_key) elements ->
  store_available caps ->
  let name := sanitize_filename_for_collection filename in
  exists w',
    process_and_store_document caps file_path filename api_key w = (Ok tt, w')
    /\ fs w' = extracted ∪ fs w
    /\ (map_to_list (collection_at w' name)).*2
       ≡ₚ ingested_documents caps (extracted ∪ fs w) filename api_key elements
          ++ (map_to_list (collection_at w name)).*2
    /\ (forall other, other <> name -> collection_at w' other = collection_at w other).
Proof.
  intros Hfile Hpart Hok Hup name.
  unfold process_and_store_document, partition_file, read_file. unfold_monad.
  cbn [fs add_call add_stdout]. rewrite Hfile, Hpart. cbn [fst snd].
  match goal with
  | |- context [process_elements ?c ?f ?k ?els ?d ?r ?w0] =>
      destruct (process_elements_ok c f k els d r w0 Hok) as (w2 & Hrun & Hfs2 & Hch2);
      rewrite Hrun
  end.
  cbn [fs chroma set_fs add_call add_stdout] in Hfs2, Hch2, Hrun.
  unfold splitter_split_text, Chroma, add_documents, persist. unfold_monad.
  rewrite !Hup. cbn [fst snd]. fold name.
  eexists. split; [reflexivity|]. world_simpl.
  split; [done|].
  split.
  - rewrite lookup_insert_eq. unfold default, from_option, id.
    rewrite add_entries_documents.
    rewrite Hch2. unfold ingested_documents. cbn [app]. done.
  - intros other Hne. rewrite lookup_insert_ne by done.
    by rewrite lookup_get_or_create_collection, Hch2.
Qed.

Lemma process_and_store_document_table_failure (caps : Capabilities)
    (file_path filename api_key bytes : string) (before after : list Element)
    (table_html : string) (e : exn) (extracted : gmap string string) (w : World) :
  fs w !! file_path = Some bytes ->
  partition caps file_path bytes = Ok (before ++ Table table_html :: after, extracted) ->
  Forall (table_ok caps api_key) before ->
  table_llm caps (table_prompt table_html) api_key = Raise e ->
  exists w',
    process_and_store_document caps file_path filename api_key w = (Raise e, w')
    /\ chroma w' = chroma w.
Proof.
  intros Hfile Hpart Hok Hfail.
  unfold process_and_store_document, partition_file, read_file. unfold_monad.
  cbn [fs add_call add_stdout]. rewrite Hfile, Hpart. cbn [fst snd].
  match goal with
  | |- context [process_elements ?c ?f ?k (?b ++ Table ?h :: ?a) ?d ?r ?w0] =>
      destruct (process_elements_table_failure c f k b a h e d r w0 Hok Hfail)
        as (w2 & Hrun & Hfs2 & Hch2);
      rewrite Hrun
  end.
  eexists. split; [reflexivity|]. exact Hch2.
Qed.

Lemma first_failing_table (caps : Capabilities) (api_key : string)
    (elements : list Element) :
  ~ Forall (table_ok caps api_key) elements ->
  exists (before after : list Element) (table_html : string) (e : exn),
    elements = before ++ Table table_html :: after
    /\ Forall (table_ok caps api_key) before
    /\ table_llm caps (table_prompt table_html) api_key = Raise e.
Proof.
  induction elements as [|element rest IH]; intros Hnot.
  { destruct Hnot. constructor. }
  assert (table_ok caps api_key element
          \/ exists table_html e,
               element = Table table_html
               /\ table_llm caps (table_prompt table_html) api_key = Raise e) as [Hok|Hbad].
  { destruct element as [table_html| |]; cbn; auto.
    destruct (table_llm caps (table_prompt table_html) api_key) as [summary|e] eqn:Ht;
      eauto. }
  - destruct IH as (before & after & table_html & e & -> & Hbefore & Hfail).
    { intros Hrest. apply Hnot. by constructor. }
    exists (element :: before), after, table_html, e.
    split; [done|]. split; [by constructor|done].
  - destruct Hbad as (table_html & e & -> & Hfail).
    exists [], rest, table_html, e. split; [done|]. split; [constructor|done].
Qed.

(** ** Theorems: ingestion *)

(** C5: in the ingestion of a saved file that partitions into elements,
    (1) when the table model fails on a table, the tables before it having
    been summarised, ingestion raises that very error and no collection has
    changed; (2) so whenever the table model fails on some table, ingestion
    raises; (3) when every table is summarised and the store answers,
    ingestion succeeds whatever happens to the images, and the document's
    collection gains exactly one chunk per table, one per image that could
    be read and described, and one per window of text: an image that fails
    costs its own chunk only. *)
Theorem C5_table_failure_aborts_image_failure_skips (caps : Capabilities)
    (file_path filename api_key bytes : string) (elements : list Element)
    (extracted : gmap string string) (w : World) :
  fs w !! file_path = Some bytes ->
  partition caps file_path bytes = Ok (elements, extracted) ->
  let outcome := process_and_store_document caps file_path filename api_key w in
  let name := sanitize_filename_for_collection filename in
  (forall (before after : list Element) (table_html : string) (e : exn),
     elements = before ++ Table table_html :: after ->
     Forall (table_ok caps api_key) before ->
     table_llm caps (table_prompt table_html) api_key = Raise e ->
     fst outcome = Raise e /\ chroma (snd outcome) = chroma w)
  /\ (~ Forall (table_ok caps api_key) elements ->
      exists e, fst outcome = Raise e /\ chroma (snd outcome) = chroma w)
  /\ (Forall (table_ok caps api_key) elements ->
      store_available caps ->
      fst outcome = Ok tt
      /\ (map_to_list (collection_at (snd outcome) name)).*2
         ≡ₚ ingested_documents caps (extracted ∪ fs w) filename api_key elements
            ++ (map_to_list (collection_at w name)).*2
      /\ (forall other, other <> name ->
            collection_at (snd outcome) other = collection_at w other)).
Proof.
  intros Hfile Hpart outcome name.
  assert (forall (before after : list Element) (table_html : string) (e : exn),
            elements = before ++ Table table_html :: after ->
            Forall (table_ok caps api_key) before ->
            table_llm caps (table_prompt table_html) api_key = Raise e ->
            fst outcome = Raise e /\ chroma (snd outcome) = chroma w) as Habort.
  { intros before after table_html e -> Hok Hfail.
    destruct (process_and_store_document_table_failure caps file_path filename api_key
                bytes before after table_html e extracted w Hfile Hpart Hok Hfail)
      as (w' & Hrun & Hch).
    unfold outcome. by rewrite Hrun. }
  split; [exact Habort|]. split.
  - intros Hnot.
    destruct (first_failing_table caps api_key elements Hnot)
      as (before & after & table_html & e & Hsplit & Hok & Hfail).
    exists e. by eapply Habort.
  - intros Hok Hup.
    destruct (process_and_store_document_ok caps file_path filename api_key bytes
                elements extracted w Hfile Hpart Hok Hup) as (w1 & Hrun & _ & Hdocs & Hother).
    unfold outcome. rewrite Hrun. cbn [fst snd]. done.
Qed.

(** On "report.pdf" the second image cannot be described: the collection
    gets the table summary, the first image's description and the text. *)
Example ingested_documents_report :
  page_content
  <$> ingested_documents example_caps
        (<[figure1_path := "JPEG"]> (<[figure2_path := ""]> ∅) ∪ fs saved_world)
        "report.pdf" "key"
        [OtherElement "Intro"; Table "<table><tr><td>1</td></tr></table>";
         UnstructuredImage figure1_path; UnstructuredImage figure2_path;
         OtherElement "End"]
  = ["A table with one column and one row."; "A chart.";
     "Intro" +:+ LF +:+ LF +:+ "End" +:+ LF +:+ LF].
Proof. by vm_compute. Qed.

Lemma C5_table_failure_aborts_image_failure_skips_witness :
  (fst (process_and_store_document example_caps report_path "report.pdf" "" saved_world)
   = Raise (Exception "API key not valid")
   /\ chroma (snd (process_and_store_document example_caps report_path "report.pdf" ""
                     saved_world))
      = chroma saved_world)
  /\ (let outcome :=
        process_and_store_document example_caps report_path "report.pdf" "key"
          saved_world in
      let name := sanitize_filename_for_collection "report.pdf" in
      fst outcome = Ok tt
      /\ (map_to_list (collection_at (snd outcome) name)).*2
         ≡ₚ ingested_documents example_caps
              (<[figure1_path := "JPEG"]> (<[figure2_path := ""]> ∅) ∪ fs saved_world)
              "report.pdf" "key"
              [OtherElement "Intro"; Table "<table><tr><td>1</td></tr></table>";
               UnstructuredImage figure1_path; UnstructuredImage figure2_path;
               OtherElement "End"]
            ++ (map_to_list (collection_at saved_world name)).*2
      /\ (forall other, other <> name ->
            collection_at (snd outcome) other = collection_at saved_world other)).
Proof.
  split.
  - apply (proj1 (C5_table_failure_aborts_image_failure_skips example_caps report_path
                    "report.pdf" "" "PDFBYTES" _ _ saved_world eq_refl eq_refl)
             [OtherElement "Intro"]
             [UnstructuredImage figure1_path; UnstructuredImage figure2_path;
              OtherElement "End"]
             "<table><tr><td>1</td></tr></table>"
             (Exception "API key not valid")).
    + reflexivity.
    + constructor; [exact I | constructor].
    + reflexivity.
  - apply (proj2 (proj2 (C5_table_failure_aborts_image_failure_skips example_caps
                           report_path "report.pdf" "key" "PDFBYTES" _ _ saved_world
                           eq_refl eq_refl))).
    + constructor; [exact I|].
      constructor; [by exists "A table with one column and one row."|].
      repeat (constructor; [exact I|]). constructor.
    + intros op. reflexivity.
Defined.

(** ** Lemmas on what a computation leaves in place *)

Global Instance files_grow_preorder : PreOrder files_grow.
Proof. split; [by intros w path|]. intros w1 w2 w3 H12 H23 path Hp. auto. Qed.

Section preserves.
Context (R : relation World) `{!PreOrder R}.

Lemma preserves_ret {A : Type} (a : A) : preserves R (mret a).
Proof. intros w. reflexivity. Qed.

Lemma preserves_raise {A : Type} (e : exn) : preserves R (@raise A e).
Proof. intros w. reflexivity. Qed.

Lemma preserves_lift_result {A : Type} (r : result A) : preserves R (lift_result r).
Proof. intros w. reflexivity. Qed.

Lemma preserves_get_world : preserves R get_world.
Proof. intros w. reflexivity. Qed.

Lemma preserves_modify_world (f : World -> World) :
  (forall w, R w (f w)) -> preserves R (modify_world f).
Proof. intros Hf w. apply Hf. Qed.

Lemma preserves_bind {A B : Type} (m : M A) (k : A -> M B) :
  preserves R m -> (forall a, preserves R (k a)) -> preserves R (m ≫= k).
Proof.
  intros Hm Hk w. unfold mbind, M_bind. specialize (Hm w).
  destruct (m w) as [[a|e] w1]; cbn [snd] in *; [|done].
  transitivity w1; [done|]. apply Hk.
Qed.

Lemma preserves_try_except {A : Type} (body : M A) (handler : exn -> M A) :
  preserves R body -> (forall e, preserves R (handler e)) ->
  preserves R (try_except body handler).
Proof.
  intros Hb Hh w. unfold try_except. specialize (Hb w).
  destruct (body w) as [[a|e] w1]; cbn [snd] in *; [done|].
  transitivity w1; [done|]. apply Hh.
Qed.
End preserves.

Ltac preserves_step :=
  first
    [ apply preserves_ret; apply _
    | apply preserves_raise; apply _
    | apply preserves_lift_result; apply _
    | apply preserves_get_world; apply _
    | apply preserves_bind; [apply _| |intros ?]
    | apply preserves_try_except; [apply _| |intros ?]
    | apply preserves_modify_world; intros ? ? ?; by cbn
    | match goal with
      | |- preserves _ (match ?x with _ => _ end) => destruct x
      end ].

Lemma store_request_files (caps : Capabilities) (op : StoreOp) :
  preserves files_grow (store_request caps op).
Proof. unfold store_request, record_call. repeat preserves_step. Qed.

Lemma process_elements_files (caps : Capabilities) (filename api_key : string)
    (elements : list Element) (docs : list Document) (raw_text : string) :
  preserves files_grow (process_elements caps filename api_key elements docs raw_text).
Proof.
  revert docs raw_text. induction elements as [|element rest IH]; intros docs raw_text;
    cbn [process_elements]; [apply preserves_ret; apply _|].
  apply preserves_bind; [apply _| |intros acc; apply IH].
  destruct element; cbn [process_element];
    unfold summarize_table, read_file, get_image_description, record_call, print;
    repeat preserves_step.
Qed.

Lemma process_and_store_document_files (caps : Capabilities)
    (file_path filename api_key : string) :
  preserves files_grow (process_and_store_document caps file_path filename api_key).
Proof.
  unfold process_and_store_document.
  apply preserves_bind; [apply _|unfold print; repeat preserves_step|intros _].
  apply preserves_bind; [apply _| |intros elements].
  { unfold partition_file, read_file, record_call.
    repeat preserves_step.
    apply preserves_modify_world. intros w path Hp. cbn.
    apply lookup_union_is_Some. by right. }
  apply preserves_bind; [apply _|apply process_elements_files|intros acc].
  unfold splitter_split_text, Chroma, add_documents, persist, print, record_call.
  repeat first [apply store_request_files | preserves_step].
Qed.

(** What an ingestion that gets through the tables and the first store
    requests leaves behind: the extracted images beside the files, and the
    document's chunks added to its collection. *)
Lemma process_and_store_document_added (caps : Capabilities)
    (file_path filename api_key bytes : string) (elements : list Element)
    (extracted : gmap string string) (w : World) :
  fs w !! file_path = Some bytes ->
  partition caps file_path bytes = Ok (elements, extracted) ->
  Forall (table_ok caps api_key) elements ->
  let name := sanitize_filename_for_collection filename in
  store_fault caps (OpOpen name) = None ->
  (forall texts, store_fault caps (OpAdd name texts) = None) ->
  exists w',
    process_and_store_document caps file_path filename api_key w
    = (match store_fault caps (OpPersist name) with
       | Some e => Raise e
       | None => Ok tt
       end, w')
    /\ fs w' = extracted ∪ fs w
    /\ (map_to_list (collection_at w' name)).*2
       ≡ₚ ingested_documents caps (extracted ∪ fs w) filename api_key elements
          ++ (map_to_list (collection_at w name)).*2.
Proof.
  intros Hfile Hpart Hok name Hopen Hadd.
  unfold process_and_store_document, partition_file, read_file. unfold_monad.
  cbn [fs add_call add_stdout]. rewrite Hfile, Hpart. cbn [fst snd].
  match goal with
  | |- context [process_elements ?c ?f ?k ?els ?d ?r ?w0] =>
      destruct (process_elements_ok c f k els d r w0 Hok) as (w2 & Hrun & Hfs2 & Hch2);
      rewrite Hrun
  end.
  cbn [fs chroma set_fs add_call add_stdout] in Hfs2, Hch2, Hrun.
  unfold splitter_split_text, Chroma, add_documents, persist. unfold_monad.
  fold name. rewrite Hopen, Hadd. cbn [fst snd].
  assert (forall w3 : World,
            chroma w3
            = <[name := foldl add_entry (default ∅ (chroma w !! name))
                          (ingested_documents caps (extracted ∪ fs w) filename api_key
                             elements)]>
                (get_or_create_collection name (chroma w)) ->
            (map_to_list (collection_at w3 name)).*2
            ≡ₚ ingested_documents caps (extracted ∪ fs w) filename api_key elements
               ++ (map_to_list (collection_at w name)).*2) as Hdocs.
  { intros w3 Hw3. unfold collection_at. rewrite Hw3, lookup_insert_eq.
    unfold default, from_option, id. apply add_entries_documents. }
  destruct (store_fault caps (OpPersist name)) as [e|];
    (eexists; split; [reflexivity|]; split; [by world_simpl|]);
    apply Hdocs; cbn [chroma fs add_stdout add_call set_chroma set_fs];
    rewrite lookup_get_or_create_collection, Hch2; reflexivity.
Qed.

(** ** Lemmas on the endpoints *)

Lemma os_path_exists_true (w : World) (path : string) :
  os_path_exists w path = true <-> is_Some (fs w !! path).
Proof. unfold os_path_exists. apply bool_decide_eq_true. Qed.

Lemma os_path_exists_false (w : World) (path : string) :
  os_path_exists w path = false <-> fs w !! path = None.
Proof.
  unfold os_path_exists. rewrite bool_decide_eq_false.
  by rewrite eq_None_not_Some.
Qed.

Lemma upload_file_existing (caps : Capabilities) (key filename bytes : string) (w : World) :
  is_Some (fs w !! os_path_join UPLOAD_DIRECTORY filename) ->
  upload_file caps key filename bytes w
  = (HTTPException 409 "File with this name already exists.", w).
Proof.
  intros Hex%os_path_exists_true. unfold upload_file. by rewrite Hex.
Qed.

(** A successful upload leaves the file in place; an upload that failed in
    ingestion has taken back the file it had saved. *)
Lemma upload_file_leaves (caps : Capabilities) (key filename bytes : string)
    (w w1 : World) (response : HttpResponse) :
  upload_file caps key filename bytes w = (response, w1) ->
  match response with
  | JSONResponse _ _ => is_Some (fs w1 !! os_path_join UPLOAD_DIRECTORY filename)
  | HTTPException _ detail =>
      forall msg : string,
        detail = "Failed to process and ingest document: " +:+ msg ->
        fs w1 !! os_path_join UPLOAD_DIRECTORY filename = None
  end.
Proof.
  unfold upload_file.
  set (file_path := os_path_join UPLOAD_DIRECTORY filename).
  destruct (os_path_exists w file_path) eqn:Hex.
  { intros [= <- <-] msg Hmsg. by apply (f_equal (String.substring 0 2)) in Hmsg. }
  apply os_path_exists_false in Hex.
  unfold write_file, modify_world, raise, mbind, M_bind.
  destruct (save_fault caps file_path) as [[e|written e]|].
  { intros [= <- <-] msg Hmsg. by apply (f_equal (String.substring 0 1)) in Hmsg. }
  { intros [= <- <-] msg Hmsg. by apply (f_equal (String.substring 0 1)) in Hmsg. }
  pose proof (process_and_store_document_files caps file_path filename key
                (set_fs (insert file_path bytes) w)) as Hgrow.
  destruct (process_and_store_document caps file_path filename key
              (set_fs (insert file_path bytes) w)) as [[[]|e] w2]; cbn [snd] in Hgrow.
  - intros [= <- <-]. apply Hgrow. cbn. rewrite lookup_insert_eq. by eexists.
  - unfold os_remove, get_world, modify_world, raise, mbind, M_bind.
    destruct (fs w2 !! file_path) eqn:Hf; intros [= <- <-]; intros msg _; cbn.
    + apply lookup_delete_eq.
    + done.
Qed.

Lemma query_document_missing (caps : Capabilities) (filename query key : string)
    (w : World) :
  fs w !! os_path_join UPLOAD_DIRECTORY filename = None ->
  query_document caps filename query key w
  = (HTTPException 404 "Document not found.", w).
Proof.
  intros Hex%os_path_exists_false. unfold query_document. by rewrite Hex.
Qed.

Lemma delete_document_removes_file (caps : Capabilities) (filename : string)
    (w w1 : World) (status : nat) (body : list (string * string)) :
  delete_document caps filename w = (JSONResponse status body, w1) ->
  fs w1 !! os_path_join UPLOAD_DIRECTORY filename = None.
Proof.
  unfold delete_document.
  set (file_path := os_path_join UPLOAD_DIRECTORY filename).
  destruct (os_path_exists w file_path) eqn:Hex; cbn [negb]; [|by intros [=]].
  apply os_path_exists_true in Hex as [bytes Hex].
  unfold os_remove, get_world, modify_world, raise, mbind, M_bind. rewrite Hex.
  destruct (delete_document_vectors_outcome caps filename (set_fs (delete file_path) w))
    as (w' & Hrun & Hfs & _).
  rewrite Hrun. intros [= _ _ <-]. rewrite Hfs. cbn. apply lookup_delete_eq.
Qed.

(** ** Theorems: the upload and query boundaries *)

(** C9, as stated, fails in its conclusion.  The upload endpoint looks for
    the file, not for the collection: "a b.txt" and "a_b.txt" are distinct
    filenames with one collection identifier, both uploads are accepted,
    and the second one sends its chunks to the collection the first one
    wrote, which then holds the chunks of both. *)
Lemma C9_two_writers_one_collection :
  let r1 := upload_file example_caps "key" "a b.txt" "first" empty_world in
  let r2 := upload_file example_caps "key" "a_b.txt" "second" (snd r1) in
  fst r1
  = JSONResponse 201
      [("filename", "a b.txt"); ("status", "Successfully uploaded and processed.")]
  /\ fst r2
     = JSONResponse 201
         [("filename", "a_b.txt"); ("status", "Successfully uploaded and processed.")]
  /\ calls (snd r1)
     = [CallPartition "./uploaded_files/a b.txt";
        CallSplitter 750 100 ("first" +:+ LF +:+ LF);
        CallStore (OpOpen "rag_a_b_txt");
        CallStore (OpAdd "rag_a_b_txt" ["first" +:+ LF +:+ LF]);
        CallStore (OpPersist "rag_a_b_txt")]
  /\ calls (snd r2)
     = calls (snd r1)
       ++ [CallPartition "./uploaded_files/a_b.txt";
           CallSplitter 750 100 ("second" +:+ LF +:+ LF);
           CallStore (OpOpen "rag_a_b_txt");
           CallStore (OpAdd "rag_a_b_txt" ["second" +:+ LF +:+ LF]);
           CallStore (OpPersist "rag_a_b_txt")]
  /\ page_content <$> (map_to_list (collection_at (snd r2) "rag_a_b_txt")).*2
     = ["second" +:+ LF +:+ LF; "first" +:+ LF +:+ LF]
  /\ ~ (forall (caps : Capabilities) (key f g bytes bytes' : string)
               (body body' : list (string * string)) (w w1 w2 : World),
          f <> g ->
          upload_file caps key f bytes w = (JSONResponse 201 body, w1) ->
          upload_file caps key g bytes' w1 = (JSONResponse 201 body', w2) ->
          collection_at w2 (sanitize_filename_for_collection f)
          = collection_at w1 (sanitize_filename_for_collection f)).
Proof.
  split; [by vm_compute|]. split; [by vm_compute|]. split; [by vm_compute|].
  split; [by vm_compute|]. split; [by vm_compute|].
  intros H.
  set (r1 := upload_file example_caps "key" "a b.txt" "first" empty_world).
  set (r2 := upload_file example_caps "key" "a_b.txt" "second" (snd r1)).
  assert (r1 = (JSONResponse 201
                  [("filename", "a b.txt");
                   ("status", "Successfully uploaded and processed.")], snd r1)) as H1
    by (by vm_compute).
  assert (r2 = (JSONResponse 201
                  [("filename", "a_b.txt");
                   ("status", "Successfully uploaded and processed.")], snd r2)) as H2
    by (by vm_compute).
  assert ("a b.txt" <> "a_b.txt") as Hne by done.
  pose proof (H example_caps "key" "a b.txt" "a_b.txt" "first" "second" _ _
                empty_world _ _ Hne H1 H2) as Hsame.
  apply (f_equal size) in Hsame. vm_compute in Hsame. discriminate.
Qed.

(** C9, amended: an upload under a name whose file is already in the upload
    directory is refused with status 409 and leaves the world as it was:
    no file written, no collection touched, nothing printed and no request
    sent to the partitioner, the models or the store.  In particular, once
    an upload has succeeded, every further upload of that filename is
    refused in this way.  The refusal keeps no other writer off the
    collection: an upload whose own file is not there is never refused as
    a conflict, and when the save, the partitioner, the tables and the
    store go through it is accepted and adds its chunks to the collection
    of any filename with the same collection identifier, beside the
    entries already there. *)
Theorem C9_upload_refuses_existing_file (caps : Capabilities)
    (key filename bytes : string) (w : World) :
  (is_Some (fs w !! os_path_join UPLOAD_DIRECTORY filename) ->
   upload_file caps key filename bytes w
   = (HTTPException 409 "File with this name already exists.", w))
  /\ (forall (body : list (string * string)) (w1 : World),
        upload_file caps key filename bytes w = (JSONResponse 201 body, w1) ->
        forall (caps' : Capabilities) (key' bytes' : string),
          upload_file caps' key' filename bytes' w1
          = (HTTPException 409 "File with this name already exists.", w1))
  /\ (entry_name filename ->
      fs w !! os_path_join UPLOAD_DIRECTORY filename = None ->
      forall detail : string,
        fst (upload_file caps key filename bytes w) <> HTTPException 409 detail)
  /\ (forall (other : string) (elements : list Element)
             (extracted : gmap string string),
        entry_name filename ->
        sanitize_filename_for_collection other
        = sanitize_filename_for_collection filename ->
        fs w !! os_path_join UPLOAD_DIRECTORY filename = None ->
        save_fault caps (os_path_join UPLOAD_DIRECTORY filename) = None ->
        partition caps (os_path_join UPLOAD_DIRECTORY filename) bytes
        = Ok (elements, extracted) ->
        Forall (table_ok caps key) elements ->
        store_available caps ->
        let w1 := snd (upload_file caps key filename bytes w) in
        fst (upload_file caps key filename bytes w)
        = JSONResponse 201
            [("filename", filename); ("status", "Successfully uploaded and processed.")]
        /\ (map_to_list (collection_at w1 (sanitize_filename_for_collection other))).*2
           ≡ₚ ingested_documents caps
                (extracted ∪ <[os_path_join UPLOAD_DIRECTORY filename := bytes]> (fs w))
                filename key elements
              ++ (map_to_list
                    (collection_at w (sanitize_filename_for_collection other))).*2).
Proof.
  split; [apply upload_file_existing|]. split; [|split].
  - intros body w1 Hup caps' key' bytes'.
    apply upload_file_existing.
    exact (upload_file_leaves caps key filename bytes w w1 _ Hup).
  - intros _ Hex%os_path_exists_false detail.
    unfold upload_file. rewrite Hex.
    destruct (write_file caps _ bytes w) as [[[]|e] w1]; [|done].
    destruct (process_and_store_document caps _ filename key w1) as [[[]|e] w2]; [done|].
    by destruct (os_remove _ w2) as [[[]|e'] w3].
  - intros other elements extracted _ Hsame Hfree Hsave Hpart Hok Hup w1.
    set (file_path := os_path_join UPLOAD_DIRECTORY filename) in *.
    pose proof Hfree as Hex%os_path_exists_false.
    destruct (process_and_store_document_added caps file_path filename key bytes elements
                extracted (set_fs (insert file_path bytes) w))
      as (w2 & Hrun & Hfs & Hdocs); [by cbn; rewrite lookup_insert_eq|done|done|done|done|].
    rewrite Hup in Hrun.
    unfold w1, upload_file. fold file_path. rewrite Hex.
    unfold write_file, modify_world. rewrite Hsave, Hrun. cbn [fst snd].
    split; [done|]. rewrite Hsame. exact Hdocs.
Qed.

Lemma C9_upload_refuses_existing_file_witness :
  is_Some (fs uploaded_world !! os_path_join UPLOAD_DIRECTORY "report.pdf")
  /\ upload_file example_caps "key" "report.pdf" "PDFBYTES" uploaded_world
     = (HTTPException 409 "File with this name already exists.", uploaded_world)
  /\ upload_file store_down_caps "other key" "report.pdf" "NEW BYTES" uploaded_world
     = (HTTPException 409 "File with this name already exists.", uploaded_world)
  /\ fst (upload_file store_down_caps "key" "a_b.txt" "second"
            (snd (upload_file example_caps "key" "a b.txt" "first" empty_world)))
     <> HTTPException 409 "File with this name already exists."
  /\ (map_to_list
        (collection_at
           (snd (upload_file example_caps "key" "a_b.txt" "second"
                   (snd (upload_file example_caps "key" "a b.txt" "first" empty_world))))
           "rag_a_b_txt")).*2
     ≡ₚ ingested_documents example_caps
          (∅ ∪ <["./uploaded_files/a_b.txt" := "second"]>
                 (fs (snd (upload_file example_caps "key" "a b.txt" "first"
                             empty_world))))
          "a_b.txt" "key" [OtherElement "second"]
        ++ (map_to_list
              (collection_at
                 (snd (upload_file example_caps "key" "a b.txt" "first" empty_world))
                 "rag_a_b_txt")).*2.
Proof.
  assert (is_Some (fs uploaded_world !! os_path_join UPLOAD_DIRECTORY "report.pdf"))
    as Hfile by (by exists "PDFBYTES").
  assert (entry_name "a_b.txt") as Hname.
  { (repeat split; [done|done|done|]); cbn; repeat (constructor; [done|]); constructor. }
  split; [exact Hfile|]. split; [|split; [|split]].
  - exact (proj1 (C9_upload_refuses_existing_file example_caps "key" "report.pdf"
                    "PDFBYTES" uploaded_world) Hfile).
  - exact (proj1 (proj2 (C9_upload_refuses_existing_file example_caps "key" "report.pdf"
                           "PDFBYTES" empty_world))
             [("filename", "report.pdf");
              ("status", "Successfully uploaded and processed.")]
             uploaded_world eq_refl store_down_caps "other key" "NEW BYTES").
  - refine (proj1 (proj2 (proj2 (C9_upload_refuses_existing_file store_down_caps "key"
                                   "a_b.txt" "second"
                                   (snd (upload_file example_caps "key" "a b.txt" "first"
                                           empty_world)))))
              Hname _ "File with this name already exists.").
    by vm_compute.
  - refine (proj2 (proj2 (proj2 (proj2 (C9_upload_refuses_existing_file example_caps "key"
                                          "a_b.txt" "second"
                                          (snd (upload_file example_caps "key" "a b.txt"
                                                  "first" empty_world)))))
                     "a b.txt" [OtherElement "second"] ∅ Hname _ _ _ _ _ _)).
    + by vm_compute.
    + by vm_compute.
    + reflexivity.
    + reflexivity.
    + constructor; [exact I|constructor].
    + intros op. reflexivity.
Defined.

(** C4, as stated, fails.  The pipeline's query never looks whether the
    collection exists: where nothing was ever ingested it opens an empty
    collection and hands the language model a prompt with an empty context,
    whose answer it returns.  The endpoint only looks for a file of that
    name in the upload directory, where the partitioner also puts the
    images it extracts: after "report.pdf" is uploaded, "figure-1.jpg" has
    a file and no collection, and a query on it is answered with status 200
    from an empty context (or, with a cross-encoder that raises on an empty
    batch, with status 500); in neither case as not found. *)
Lemma C4_answered_from_empty_context :
  fst ((rag_chain ← create_rag_chain example_caps "ghost.pdf" "key";
        rag_chain_invoke example_caps rag_chain "What?") empty_world)
  = Ok "I don't have enough information."
  /\ last (calls (snd ((rag_chain ← create_rag_chain example_caps "ghost.pdf" "key";
                        rag_chain_invoke example_caps rag_chain "What?") empty_world)))
     = Some (CallChatLLM (rag_prompt "" "What?"))
  /\ chroma uploaded_world !! sanitize_filename_for_collection "figure-1.jpg" = None
  /\ fst (query_document example_caps "figure-1.jpg" "What?" "key" uploaded_world)
     = JSONResponse 200
         [("filename", "figure-1.jpg"); ("query", "What?");
          ("answer", "I don't have enough information.")]
  /\ last (calls (snd (query_document example_caps "figure-1.jpg" "What?" "key"
                         uploaded_world)))
     = Some (CallChatLLM (rag_prompt "" "What?"))
  /\ fst (query_document strict_encoder_caps "figure-1.jpg" "What?" "key" uploaded_world)
     = HTTPException 500 "Error during query processing: list index out of range"
  /\ ~ (forall (caps : Capabilities) (filename query key : string) (w : World),
          chroma w !! sanitize_filename_for_collection filename = None ->
          exists detail,
            fst (query_document caps filename query key w) = HTTPException 404 detail).
Proof.
  split; [by vm_compute|]. split; [by vm_compute|]. split; [by vm_compute|].
  split; [by vm_compute|]. split; [by vm_compute|]. split; [by vm_compute|].
  intros H.
  destruct (H example_caps "figure-1.jpg" "What?" "key" uploaded_world) as [detail Hd];
    [by vm_compute|].
  vm_compute in Hd. discriminate.
Qed.

(** C4, amended: for a filename that names an entry of the upload
    directory, a query is refused with status 404, before any retrieval or
    model call and with the world unchanged, whenever no file of that name
    is there; that is the case after the document has been deleted through
    the delete endpoint, and after an upload of it that failed in
    ingestion.  Whether vectors exist is never looked at: with a file of
    that name present, the store answering and no vector in the
    collection (a search in an empty collection finding nothing), the
    query is not refused as not found; the empty batch goes to the
    cross-encoder, and the response is 500 with its error if it raises,
    else the language model is asked with an empty context and the
    response is 200 with its answer, or 500 with its error. *)
Theorem C4_query_needs_uploaded_file (caps : Capabilities)
    (filename query key : string) (w : World) :
  entry_name filename ->
  (fs w !! os_path_join UPLOAD_DIRECTORY filename = None ->
   query_document caps filename query key w
   = (HTTPException 404 "Document not found.", w))
  /\ (forall (caps0 : Capabilities) (status : nat) (body : list (string * string))
             (w1 : World),
        delete_document caps0 filename w = (JSONResponse status body, w1) ->
        query_document caps filename query key w1
        = (HTTPException 404 "Document not found.", w1))
  /\ (forall (caps0 : Capabilities) (key0 bytes msg : string) (status : nat)
             (w1 : World),
        upload_file caps0 key0 filename bytes w
        = (HTTPException status ("Failed to process and ingest document: " +:+ msg), w1) ->
        query_document caps filename query key w1
        = (HTTPException 404 "Document not found.", w1))
  /\ (is_Some (fs w !! os_path_join UPLOAD_DIRECTORY filename) ->
      store_available caps ->
      collection_at w (sanitize_filename_for_collection filename) = ∅ ->
      similarity_search caps ∅ query 25 = [] ->
      fst (query_document caps filename query key w)
      = match predict caps [] with
        | Raise e => HTTPException 500 ("Error during query processing: " +:+ exn_msg e)
        | Ok _ =>
            match chat_llm caps (rag_prompt "" query) key with
            | Raise e =>
                HTTPException 500 ("Error during query processing: " +:+ exn_msg e)
            | Ok answer =>
                JSONResponse 200
                  [("filename", filename); ("query", query); ("answer", answer)]
            end
        end).
Proof.
  intros _.
  split; [apply query_document_missing|]. split; [|split].
  - intros caps0 status body w1 Hdel. apply query_document_missing.
    by eapply delete_document_removes_file.
  - intros caps0 key0 bytes msg status w1 Hup. apply query_document_missing.
    exact (upload_file_leaves caps0 key0 filename bytes w w1 _ Hup msg eq_refl).
  - intros Hfile%os_path_exists_true Hup Hempty Hsearch.
    unfold query_document. rewrite Hfile. cbn [negb].
    unfold create_rag_chain, rag_chain_invoke, Chroma, retriever_invoke, rerank_docs,
      cross_encoder_predict, store_request, record_call, modify_world, get_world, raise,
      lift_result, mbind, M_bind, mret, M_ret.
    rewrite !Hup. cbn [chain_vector_store chain_api_key fst snd].
    rewrite ?Hup. world_simpl. unfold collection_at in *.
    rewrite Hempty, Hsearch. cbn [fmap list_fmap].
    destruct (predict caps []) as [scores|e]; [|done].
    cbn. by destruct (chat_llm caps _ key).
Qed.

Lemma C4_query_needs_uploaded_file_witness :
  query_document example_caps "ghost.pdf" "What?" "key" uploaded_world
  = (HTTPException 404 "Document not found.", uploaded_world)
  /\ query_document example_caps "report.pdf" "What?" "key"
       (snd (delete_document example_caps "report.pdf" uploaded_world))
     = (HTTPException 404 "Document not found.",
        snd (delete_document example_caps "report.pdf" uploaded_world))
  /\ query_document example_caps "report.pdf" "What?" "key"
       (snd (upload_file example_caps "" "report.pdf" "PDFBYTES" empty_world))
     = (HTTPException 404 "Document not found.",
        snd (upload_file example_caps "" "report.pdf" "PDFBYTES" empty_world))
  /\ fst (query_document strict_encoder_caps "figure-1.jpg" "What?" "key" uploaded_world)
     = HTTPException 500 "Error during query processing: list index out of range".
Proof.
  assert (forall name : string,
            name = "ghost.pdf" \/ name = "report.pdf" \/ name = "figure-1.jpg" ->
            entry_name name) as Hname.
  { intros name [->|[->| ->]]; (repeat split; [done|done|done|]);
      cbn; repeat (constructor; [done|]); constructor. }
  split; [|split; [|split]].
  - apply (proj1 (C4_query_needs_uploaded_file example_caps "ghost.pdf" "What?" "key"
                    uploaded_world (Hname _ (or_introl eq_refl)))).
    reflexivity.
  - apply (proj1 (proj2 (C4_query_needs_uploaded_file example_caps "report.pdf" "What?"
                           "key" uploaded_world (Hname _ (or_intror (or_introl eq_refl)))))
             example_caps 200
             [("status", "ok");
              ("message", "File 'report.pdf' and its vector data deleted successfully.")]).
    reflexivity.
  - apply (proj1 (proj2 (proj2 (C4_query_needs_uploaded_file example_caps "report.pdf"
                                  "What?" "key" empty_world
                                  (Hname _ (or_intror (or_introl eq_refl))))))
             example_caps "" "PDFBYTES" "API key not valid" 500).
    reflexivity.
  - apply (proj2 (proj2 (proj2 (C4_query_needs_uploaded_file strict_encoder_caps
                                  "figure-1.jpg" "What?" "key" uploaded_world
                                  (Hname _ (or_intror (or_intror eq_refl))))))).
    + by exists "JPEG".
    + intros op. reflexivity.
    + reflexivity.
    + reflexivity.
Defined.

(** ** Further properties: collection naming *)

Lemma string_length_app (s t : string) :
  String.length (s +:+ t) = String.length s + String.length t.
Proof.
  induction s as [|c s IH]; [done|].
  change (String c s +:+ t) with (String c (s +:+ t)). cbn. by rewrite IH.
Qed.

Lemma pystr_map_length (f : ascii -> ascii) (s : string) :
  String.length (PyStr.map f s) = String.length s.
Proof. induction s as [|c s IH]; cbn; [done|]. by rewrite IH. Qed.

Lemma pystr_to_list_app (s t : string) :
  PyStr.to_list (s +:+ t) = PyStr.to_list s ++ PyStr.to_list t.
Proof.
  induction s as [|c s IH]; [done|].
  change (String c s +:+ t) with (String c (s +:+ t)). cbn. by rewrite IH.
Qed.

Lemma pystr_to_list_map (f : ascii -> ascii) (s : string) :
  PyStr.to_list (PyStr.map f s) = f <$> PyStr.to_list s.
Proof. induction s as [|c s IH]; cbn; [done|]. by rewrite IH. Qed.

Lemma pystr_to_list_inj (s t : string) : PyStr.to_list s = PyStr.to_list t -> s = t.
Proof.
  revert t. induction s as [|c s IH]; intros [|d t]; cbn; try done.
  intros [= -> H]. f_equal. by apply IH.
Qed.

Lemma underscore_if_separator_plain (c : ascii) :
  underscore_if_separator c <> " "%char /\ underscore_if_separator c <> "."%char.
Proof. unfold underscore_if_separator. repeat case_decide; by split. Qed.

(** X1: The identifier is four characters longer than the filename, starts
    with rag_, and holds no space and no period, whatever the filename. *)
Theorem sanitize_output_shape (filename : string) :
  String.length (sanitize_filename_for_collection filename)
  = 4 + String.length filename
  /\ String.prefix "rag_" (sanitize_filename_for_collection filename) = true
  /\ plain_name (sanitize_filename_for_collection filename).
Proof.
  rewrite sanitize_is_name_by_rule. unfold name_by_rule, plain_name.
  split; [by rewrite string_length_app, pystr_map_length|].
  split.
  { cbn. by destruct (PyStr.map underscore_if_separator filename). }
  rewrite pystr_to_list_app, pystr_to_list_map. apply Forall_app. split.
  - cbn. repeat constructor; done.
  - apply Forall_fmap, Forall_true. intros c. apply underscore_if_separator_plain.
Qed.

(** X2: A filename without space or period is kept as it is behind the
    prefix, so naming is injective on such filenames. *)
Theorem sanitize_plain_name (filename : string) :
  plain_name filename ->
  sanitize_filename_for_collection filename = "rag_" +:+ filename
  /\ (forall other, plain_name other ->
        sanitize_filename_for_collection other
        = sanitize_filename_for_collection filename -> other = filename).
Proof.
  assert (forall f, plain_name f -> PyStr.map underscore_if_separator f = f) as Hid.
  { intros f. unfold plain_name. induction f as [|c f IH]; cbn; [done|].
    intros [[Hs Hp] Hf]%Forall_cons. rewrite (IH Hf). f_equal.
    unfold underscore_if_separator. by rewrite !decide_False. }
  intros Hplain. rewrite !sanitize_is_name_by_rule. unfold name_by_rule.
  split; [by rewrite Hid|].
  intros other Hother. rewrite sanitize_is_name_by_rule. unfold name_by_rule.
  rewrite !Hid by done. apply string_app_inj_l.
Qed.

Lemma sanitize_plain_name_witness :
  plain_name "notes_v2-final"
  /\ sanitize_filename_for_collection "notes_v2-final" = "rag_notes_v2-final".
Proof.
  assert (plain_name "notes_v2-final") as H.
  { unfold plain_name. cbn. repeat constructor; done. }
  split; [exact H|]. exact (proj1 (sanitize_plain_name "notes_v2-final" H)).
Defined.

(** ** Further properties: re-ranking *)

Lemma sort_reverse_descending_id {A : Type} (key : A -> Z) (l : list A) :
  StronglySorted (descending key) l -> PyList.sort_reverse key l = l.
Proof.
  induction 1 as [|x l Hs IH Hx]; [done|].
  cbn [PyList.sort_reverse foldr]. fold (PyList.sort_reverse key l). rewrite IH.
  destruct l as [|y l']; [done|]. cbn [PyList.insert_reverse].
  apply Forall_cons in Hx as [Hy _]. unfold descending in Hy.
  by destruct (Z.ltb_spec (key x) (key y)); [lia|].
Qed.

(** X3: Candidates that Stage 1 already delivers best first are not reordered:
    re-ranking returns the first five of them as they came. *)
Theorem rerank_docs_keeps_sorted_order (caps : Capabilities) (query : string)
    (docs : list Document) (scores : list Z) (w : World) :
  predict caps ((fun doc => (query, page_content doc)) <$> docs) = Ok scores ->
  length scores = length docs ->
  StronglySorted (fun a b => (b <= a)%Z) scores ->
  fst (rerank_docs caps query docs w) = Ok (take 5 docs).
Proof.
  intros Hp Hlen Hsorted.
  rewrite (rerank_docs_run _ _ _ _ _ Hp). cbn [fst]. f_equal.
  unfold ranked. rewrite sort_reverse_descending_id.
  - by rewrite fmap_take, zip_fst.
  - clear Hp. revert scores Hlen Hsorted.
    induction docs as [|d docs IH]; intros [|s scores] Hlen Hs; cbn; try constructor.
    + apply IH; [by injection Hlen|]. by inversion Hs.
    + inversion Hs as [|? ? _ Hall]; subst. injection Hlen as Hlen.
      clear IH Hs. revert scores Hlen Hall.
      induction docs as [|d' docs IH]; intros [|s' scores] Hlen Hall; cbn;
        try constructor.
      * unfold descending. cbn. by inversion Hall.
      * apply IH; [by injection Hlen|]. by inversion Hall.
Qed.

Lemma rerank_docs_keeps_sorted_order_witness :
  fst (rerank_docs example_caps "q"
         [text_doc "ccc"; text_doc "eee"; text_doc "aa"; text_doc "dd"; text_doc "b";
          text_doc "f"] empty_world)
  = Ok (take 5 [text_doc "ccc"; text_doc "eee"; text_doc "aa"; text_doc "dd";
                text_doc "b"; text_doc "f"]).
Proof.
  apply (rerank_docs_keeps_sorted_order example_caps "q" _ [3; 3; 2; 2; 1; 1]%Z);
    [reflexivity | reflexivity |].
  repeat (constructor; [|repeat (constructor; [lia|]); constructor]). constructor.
Defined.

(** ** Further properties: selecting the ids to delete *)

(** X4: The comprehension over the ids indexes the metadata list: with enough
    metadata it returns, in order, the ids whose metadata names the
    filename as source; if the metadata list is too short for some id it
    raises an index error. *)
Theorem select_ids_bounds (filename : string) (metadatas : list (gmap string string))
    (i : nat) (ids : list string) :
  (i + length ids <= length metadatas ->
   exists selected,
     select_ids filename metadatas i ids = Ok selected
     /\ selected `sublist_of` ids
     /\ forall j doc_id md,
          ids !! j = Some doc_id -> metadatas !! (i + j) = Some md ->
          md !! "source" = Some filename -> doc_id ∈ selected)
  /\ (ids <> [] -> length metadatas < i + length ids ->
      select_ids filename metadatas i ids = Raise (Exception "list index out of range")).
Proof.
  revert i. induction ids as [|doc_id ids IH]; intros i; cbn [select_ids length].
  { split; [|done]. intros _. exists []. split; [done|]. split; [done|].
    intros j ? ? Hj. by rewrite lookup_nil in Hj. }
  destruct (IH (S i)) as [IHok IHbad]. split.
  - intros Hlen.
    destruct (lookup_lt_is_Some_2 metadatas i) as [md Hmd]; [lia|]. rewrite Hmd.
    destruct IHok as (selected & -> & Hsub & Hall); [lia|].
    destruct (decide (md !! "source" = Some filename)) as [Hsrc|Hsrc].
    + eexists. split; [done|]. split; [by apply sublist_skip|].
      intros [|j] doc_id' md' Hj Hmd' Hs'; cbn in Hj.
      * injection Hj as <-. left.
      * right. apply (Hall j doc_id' md'); [done| |done].
        by replace (S i + j) with (i + S j) by lia.
    + eexists. split; [done|]. split; [by apply sublist_cons|].
      intros [|j] doc_id' md' Hj Hmd' Hs'; cbn in Hj.
      * rewrite Nat.add_0_r in Hmd'. congruence.
      * apply (Hall j doc_id' md'); [done| |done].
        by replace (S i + j) with (i + S j) by lia.
  - intros _ Hlen. destruct (metadatas !! i) as [md|] eqn:Hmd; [|done].
    apply lookup_lt_Some in Hmd.
    rewrite IHbad; [done| |lia]. intros ->. cbn in Hlen. lia.
Qed.

Lemma select_ids_bounds_witness :
  (exists selected,
     select_ids "a.pdf"
       [source_type_metadata "a.pdf" "text"; source_type_metadata "img.jpg" "image_description"]
       0 ["id"; "id0"] = Ok selected
     /\ selected `sublist_of` ["id"; "id0"]
     /\ forall j doc_id md,
          ["id"; "id0"] !! j = Some doc_id ->
          [source_type_metadata "a.pdf" "text";
           source_type_metadata "img.jpg" "image_description"] !! (0 + j) = Some md ->
          md !! "source" = Some "a.pdf" -> doc_id ∈ selected)
  /\ select_ids "a.pdf" [source_type_metadata "a.pdf" "text"] 0 ["id"; "id0"]
     = Raise (Exception "list index out of range").
Proof.
  split.
  - apply (proj1 (select_ids_bounds "a.pdf" _ 0 ["id"; "id0"])). cbn. lia.
  - apply (proj2 (select_ids_bounds "a.pdf" _ 0 ["id"; "id0"])); [done | cbn; lia].
Defined.

(** ** Further properties: what ingestion and querying leave in place *)

Global Instance same_entries_preorder : PreOrder same_entries.
Proof.
  split; [by intros w|].
  intros w1 w2 w3 [Hf12 Hc12] [Hf23 Hc23]. split; [congruence|].
  intros name. by rewrite Hc23.
Qed.

Global Instance entries_kept_preorder : PreOrder entries_kept.
Proof.
  split; [by intros w name|].
  intros w1 w2 w3 H12 H23 name. transitivity (collection_at w2 name); [apply H12|apply H23].
Qed.

Global Instance others_same_preorder (name : string) : PreOrder (others_same name).
Proof.
  split; [by intros w other|].
  intros w1 w2 w3 H12 H23 other Hne. rewrite H23, H12; done.
Qed.

Lemma add_entries_subseteq (docs : list Document) (c : gmap string Document) :
  c ⊆ foldl add_entry c docs.
Proof.
  revert c. induction docs as [|doc docs IH]; intros c; [done|].
  cbn [foldl]. etrans; [|apply IH].
  apply insert_subseteq, fresh_string_fresh.
Qed.

(** One step of a proof that a computation keeps a relation; [tac] settles
    the goals about a single change of the world. *)
Ltac preserves_with tac :=
  repeat first
    [ apply preserves_ret; apply _
    | apply preserves_raise; apply _
    | apply preserves_lift_result; apply _
    | apply preserves_get_world; apply _
    | apply preserves_bind; [apply _| |intros ?]
    | apply preserves_try_except; [apply _| |intros ?]
    | match goal with
      | |- preserves _ (match ?x with _ => _ end) => destruct x
      end
    | apply preserves_modify_world; intros ?; tac ].

Ltac same_entries_change :=
  split; [done|]; intros ?; unfold collection_at;
  cbn [chroma fs add_stdout add_call set_chroma set_fs];
  by rewrite ?lookup_get_or_create_collection.

Lemma query_chain_same_entries (caps : Capabilities) (filename query key : string) :
  preserves same_entries
    (rag_chain ← create_rag_chain caps filename key;
     rag_chain_invoke caps rag_chain query).
Proof.
  unfold create_rag_chain, rag_chain_invoke, Chroma, retriever_invoke, rerank_docs,
    cross_encoder_predict, store_request, record_call.
  preserves_with same_entries_change.
Qed.

Ltac entries_kept_change :=
  intros ?; unfold collection_at;
  cbn [chroma fs add_stdout add_call set_chroma set_fs];
  rewrite ?lookup_get_or_create_collection; try done.

Lemma process_element_entries (caps : Capabilities) (filename api_key : string)
    (R : relation World) `{!PreOrder R}
    (element : Element) (docs : list Document) (raw_text : string) :
  (forall w line, R w (add_stdout line w)) ->
  (forall w c, R w (add_call c w)) ->
  preserves R (process_element caps filename api_key element docs raw_text).
Proof.
  intros Hout Hcall.
  destruct element; cbn [process_element];
    unfold summarize_table, read_file, get_image_description, record_call, print;
    preserves_with ltac:(first [apply Hout | apply Hcall]).
Qed.

Lemma process_elements_entries (caps : Capabilities) (filename api_key : string)
    (R : relation World) `{!PreOrder R}
    (elements : list Element) (docs : list Document) (raw_text : string) :
  (forall w line, R w (add_stdout line w)) ->
  (forall w c, R w (add_call c w)) ->
  preserves R (process_elements caps filename api_key elements docs raw_text).
Proof.
  intros Hout Hcall. revert docs raw_text.
  induction elements as [|element rest IH]; intros docs raw_text;
    cbn [process_elements]; [apply preserves_ret; apply _|].
  apply preserves_bind; [apply _| |intros acc; apply IH].
  by apply process_element_entries.
Qed.

Lemma process_and_store_document_entries_kept (caps : Capabilities)
    (file_path filename api_key : string) :
  preserves entries_kept (process_and_store_document caps file_path filename api_key).
Proof.
  unfold process_and_store_document.
  apply preserves_bind; [apply _|unfold print; preserves_with entries_kept_change|intros _].
  apply preserves_bind; [apply _| |intros elements].
  { unfold partition_file, read_file, record_call. preserves_with entries_kept_change. }
  apply preserves_bind; [apply _| |intros acc].
  { apply process_elements_entries; [apply _|by intros w line name|by intros w c name]. }
  unfold splitter_split_text, Chroma, add_documents, persist, print, store_request,
    record_call.
  preserves_with entries_kept_change.
  match goal with
  | |- context [<[?k := ?v]> _ !! ?n] => destruct (decide (n = k)) as [->|Hne]
  end.
  - rewrite lookup_insert_eq. cbn. apply add_entries_subseteq.
  - by rewrite lookup_insert_ne.
Qed.

Lemma preserves_Chroma_bind {B : Type} (R : relation World) `{!PreOrder R}
    (caps : Capabilities) (name : string) (k : string -> M B) :
  (forall w c, R w (add_call c w)) ->
  (forall w, R w (set_chroma (get_or_create_collection name) w)) ->
  preserves R (k name) ->
  preserves R (Chroma caps name ≫= k).
Proof.
  intros Hcall Hopen Hk w.
  unfold Chroma, store_request, record_call, modify_world, raise, mbind, M_bind, mret,
    M_ret.
  destruct (store_fault caps (OpOpen name)); cbn [snd]; [apply Hcall|].
  transitivity (add_call (CallStore (OpOpen name)) w); [apply Hcall|].
  etransitivity; [apply Hopen|]. apply Hk.
Qed.

Lemma process_and_store_document_others_same (caps : Capabilities)
    (file_path filename api_key : string) :
  preserves (others_same (sanitize_filename_for_collection filename))
    (process_and_store_document caps file_path filename api_key).
Proof.
  set (name := sanitize_filename_for_collection filename).
  assert (forall w line, others_same name w (add_stdout line w)) as Hout
    by (by intros w line other Hne).
  assert (forall w c, others_same name w (add_call c w)) as Hcall
    by (by intros w c other Hne).
  unfold process_and_store_document. fold name.
  apply preserves_bind; [apply _|unfold print; preserves_with ltac:(apply Hout)|intros _].
  apply preserves_bind; [apply _| |intros elements].
  { unfold partition_file, read_file, record_call.
    preserves_with ltac:(first [apply Hcall | by intros other Hne]). }
  apply preserves_bind; [apply _| |intros acc].
  { by apply process_elements_entries; [apply _| |]. }
  apply preserves_bind; [apply _| |intros text_chunks].
  { unfold splitter_split_text, record_call. preserves_with ltac:(apply Hcall). }
  apply preserves_Chroma_bind; [apply _|done| |].
  { intros w other Hne. unfold collection_at. cbn.
    by rewrite lookup_get_or_create_collection. }
  unfold add_documents, persist, print, store_request, record_call.
  preserves_with ltac:(first [apply Hout | apply Hcall | idtac]).
  intros other Hne. unfold collection_at. cbn. by rewrite lookup_insert_ne.
Qed.

(** X5: Ingestion only adds: whether it returns or raises, and whatever the
    collaborators do, every entry stored before is still stored unchanged
    under its id, and the collections of other documents have exactly the
    entries they had. *)
Theorem ingestion_only_adds (caps : Capabilities) (file_path filename api_key : string)
    (w : World) :
  let w' := snd (process_and_store_document caps file_path filename api_key w) in
  (forall name id d,
     collection_at w name !! id = Some d -> collection_at w' name !! id = Some d)
  /\ (forall other, other <> sanitize_filename_for_collection filename ->
        collection_at w' other = collection_at w other).
Proof.
  intros w'. split.
  - intros name id d Hd.
    pose proof (process_and_store_document_entries_kept caps file_path filename api_key
                  w name) as Hsub.
    by eapply lookup_weaken.
  - apply (process_and_store_document_others_same caps file_path filename api_key w).
Qed.

(** X6: A query writes nothing: whatever its outcome, the files are the same
    and every collection has the entries it had (the queried document's
    collection is at most created empty). *)
Theorem query_document_reads_only (caps : Capabilities) (filename query key : string)
    (w : World) :
  let w' := snd (query_document caps filename query key w) in
  fs w' = fs w
  /\ stdout w' = stdout w
  /\ forall name, collection_at w' name = collection_at w name.
Proof.
  intros w'. unfold w', query_document.
  destruct (negb _); [done|].
  pose proof (query_chain_same_entries caps filename query key w) as [Hfs Hc].
  assert (stdout (snd ((rag_chain ← create_rag_chain caps filename key;
                        rag_chain_invoke caps rag_chain query) w)) = stdout w) as Hout.
  { unfold create_rag_chain, rag_chain_invoke, Chroma, retriever_invoke, rerank_docs,
      cross_encoder_predict, store_request, record_call, modify_world, get_world, raise,
      lift_result, mbind, M_bind, mret, M_ret.
    repeat (match goal with
            | |- context [match ?x with _ => _ end] =>
                lazymatch x with
                | store_fault _ _ => destruct x
                | predict _ _ => destruct x
                | chat_llm _ _ _ => destruct x
                end
            end; cbn); done. }
  destruct ((rag_chain ← create_rag_chain caps filename key;
             rag_chain_invoke caps rag_chain query) w) as [[answer|e] w1]; done.
Qed.

(** ** Further properties: the query endpoint *)



(** X8: A query on a present file with the store down is not refused as
    missing and not answered: it ends in 500 with the store's error. *)
Theorem query_document_store_down (caps : Capabilities) (filename query key : string)
    (e : exn) (w : World) :
  is_Some (fs w !! os_path_join UPLOAD_DIRECTORY filename) ->
  store_fault caps (OpOpen (sanitize_filename_for_collection filename)) = Some e ->
  query_document caps filename query key w
  = (HTTPException 500 ("Error during query processing: " +:+ exn_msg e),
     add_call (CallStore (OpOpen (sanitize_filename_for_collection filename))) w).
Proof.
  intros Hfile%os_path_exists_true Hdown.
  unfold query_document. rewrite Hfile. cbn [negb].
  unfold create_rag_chain, Chroma, store_request, record_call, modify_world, raise,
    mbind, M_bind. by rewrite Hdown.
Qed.

(** ** Further properties: the upload endpoint *)

(** X9: An upload whose ingestion raises ends in 500 carrying the error's
    message and takes back the saved file: the name is free again and the
    files that were there before are all still there. *)
Theorem upload_file_ingestion_failure (caps : Capabilities)
    (key filename bytes : string) (e : exn) (w : World) :
  let file_path := os_path_join UPLOAD_DIRECTORY filename in
  fs w !! file_path = None ->
  save_fault caps file_path = None ->
  fst (process_and_store_document caps file_path filename key
         (set_fs (insert file_path bytes) w)) = Raise e ->
  fst (upload_file caps key filename bytes w)
  = HTTPException 500 ("Failed to process and ingest document: " +:+ exn_msg e)
  /\ fs (snd (upload_file caps key filename bytes w)) !! file_path = None
  /\ (forall path, is_Some (fs w !! path) ->
        is_Some (fs (snd (upload_file caps key filename bytes w)) !! path)).
Proof.
  intros file_path Hfree Hopen Hraise.
  pose proof Hfree as Hex%os_path_exists_false.
  unfold upload_file. fold file_path. rewrite Hex.
  unfold write_file, modify_world. rewrite Hopen.
  pose proof (process_and_store_document_files caps file_path filename key
                (set_fs (insert file_path bytes) w)) as Hgrow.
  destruct (process_and_store_document caps file_path filename key
              (set_fs (insert file_path bytes) w)) as [[[]|e'] w2];
    cbn [fst snd] in Hraise, Hgrow; [done|]. injection Hraise as ->.
  destruct (Hgrow file_path) as [saved Hsaved].
  { cbn. rewrite lookup_insert_eq. by eexists. }
  unfold os_remove, get_world, modify_world, mbind, M_bind. rewrite Hsaved. cbn.
  split; [done|]. split; [apply lookup_delete_eq|].
  intros path Hpath.
  assert (path <> file_path) as Hne.
  { intros ->. rewrite Hfree in Hpath. by destruct Hpath. }
  rewrite lookup_delete_ne by done. apply Hgrow. cbn. by rewrite lookup_insert_ne.
Qed.

Lemma upload_file_ingestion_failure_witness :
  fst (upload_file example_caps "" "report.pdf" "PDFBYTES" empty_world)
  = HTTPException 500 "Failed to process and ingest document: API key not valid"
  /\ fs (snd (upload_file example_caps "" "report.pdf" "PDFBYTES" empty_world))
     !! os_path_join UPLOAD_DIRECTORY "report.pdf" = None.
Proof.
  destruct (upload_file_ingestion_failure example_caps "" "report.pdf" "PDFBYTES"
              (Exception "API key not valid") empty_world eq_refl eq_refl eq_refl)
    as (Hresponse & Hgone & _).
  by split.
Defined.



(** X11: A first upload that goes through: with a free name, every table
    summarised and the store answering, the response is 201, the file is
    in place beside the images the partitioner extracted, and the
    document's collection has gained exactly the document's chunks. *)
Theorem upload_file_success (caps : Capabilities) (key filename bytes : string)
    (elements : list Element) (extracted : gmap string string) (w : World) :
  let file_path := os_path_join UPLOAD_DIRECTORY filename in
  let name := sanitize_filename_for_collection filename in
  fs w !! file_path = None ->
  save_fault caps file_path = None ->
  partition caps file_path bytes = Ok (elements, extracted) ->
  Forall (table_ok caps key) elements ->
  store_available caps ->
  let w1 := snd (upload_file caps key filename bytes w) in
  fst (upload_file caps key filename bytes w)
  = JSONResponse 201
      [("filename", filename); ("status", "Successfully uploaded and processed.")]
  /\ fs w1 = extracted ∪ <[file_path := bytes]> (fs w)
  /\ (map_to_list (collection_at w1 name)).*2
     ≡ₚ ingested_documents caps (extracted ∪ <[file_path := bytes]> (fs w))
          filename key elements
        ++ (map_to_list (collection_at w name)).*2.
Proof.
  intros file_path name Hfree Hopen Hpart Hok Hup w1.
  pose proof Hfree as Hex%os_path_exists_false.
  destruct (process_and_store_document_added caps file_path filename key bytes elements
              extracted (set_fs (insert file_path bytes) w))
    as (w2 & Hrun & Hfs & Hdocs); [by cbn; rewrite lookup_insert_eq|done|done|done|done|].
  rewrite Hup in Hrun.
  unfold w1, upload_file. fold file_path. rewrite Hex.
  unfold write_file, modify_world. rewrite Hopen, Hrun. cbn [fst snd].
  split; [done|]. split; [exact Hfs|exact Hdocs].
Qed.

Lemma upload_file_success_witness :
  fst (upload_file example_caps "key" "report.pdf" "PDFBYTES" empty_world)
  = JSONResponse 201
      [("filename", "report.pdf"); ("status", "Successfully uploaded and processed.")]
  /\ (map_to_list (collection_at uploaded_world "rag_report_pdf")).*2
     ≡ₚ ingested_documents example_caps
          (report_images ∪ <[report_path := "PDFBYTES"]> ∅) "report.pdf" "key"
          report_elements
        ++ [].
Proof.
  destruct (upload_file_success example_caps "key" "report.pdf" "PDFBYTES"
              report_elements report_images empty_world eq_refl eq_refl eq_refl)
    as (Hresponse & _ & Hdocs).
  - constructor; [exact I|].
    constructor; [by exists "A table with one column and one row."|].
    repeat (constructor; [exact I|]). constructor.
  - intros op. reflexivity.
  - split; [exact Hresponse|exact Hdocs].
Defined.

(** X12: No rollback: when the store takes the documents but fails to persist,
    the upload ends in 500 and takes back the file, yet the document's
    chunks stay in its collection. *)
Theorem upload_file_persist_failure_keeps_vectors (caps : Capabilities)
    (key filename bytes : string) (elements : list Element)
    (extracted : gmap string string) (e : exn) (w : World) :
  let file_path := os_path_join UPLOAD_DIRECTORY filename in
  let name := sanitize_filename_for_collection filename in
  fs w !! file_path = None ->
  save_fault caps file_path = None ->
  partition caps file_path bytes = Ok (elements, extracted) ->
  Forall (table_ok caps key) elements ->
  store_fault caps (OpOpen name) = None ->
  (forall texts, store_fault caps (OpAdd name texts) = None) ->
  store_fault caps (OpPersist name) = Some e ->
  let w1 := snd (upload_file caps key filename bytes w) in
  fst (upload_file caps key filename bytes w)
  = HTTPException 500 ("Failed to process and ingest document: " +:+ exn_msg e)
  /\ fs w1 !! file_path = None
  /\ (map_to_list (collection_at w1 name)).*2
     ≡ₚ ingested_documents caps (extracted ∪ <[file_path := bytes]> (fs w))
          filename key elements
        ++ (map_to_list (collection_at w name)).*2.
Proof.
  intros file_path name Hfree Hopen Hpart Hok Hstore Hadd Hpersist w1.
  pose proof Hfree as Hex%os_path_exists_false.
  destruct (process_and_store_document_added caps file_path filename key bytes elements
              extracted (set_fs (insert file_path bytes) w))
    as (w2 & Hrun & Hfs & Hdocs); [by cbn; rewrite lookup_insert_eq|done|done|done|done|].
  fold name in Hrun. rewrite Hpersist in Hrun.
  unfold w1, upload_file. fold file_path. rewrite Hex.
  unfold write_file, modify_world. rewrite Hopen, Hrun.
  unfold os_remove, get_world, modify_world, raise, mbind, M_bind.
  destruct (fs w2 !! file_path) eqn:Hsaved; cbn [fst snd].
  - split; [done|]. split; [cbn; apply lookup_delete_eq|exact Hdocs].
  - exfalso. rewrite Hfs in Hsaved. apply lookup_union_None in Hsaved as [_ Hsaved].
    cbn in Hsaved. by rewrite lookup_insert_eq in Hsaved.
Qed.

Lemma upload_file_persist_failure_keeps_vectors_witness :
  fst (upload_file persist_down_caps "key" "report.pdf" "PDFBYTES" empty_world)
  = HTTPException 500 "Failed to process and ingest document: disk full"
  /\ fs (snd (upload_file persist_down_caps "key" "report.pdf" "PDFBYTES" empty_world))
     !! report_path = None
  /\ size (collection_at
             (snd (upload_file persist_down_caps "key" "report.pdf" "PDFBYTES"
                     empty_world)) "rag_report_pdf") = 3.
Proof.
  destruct (upload_file_persist_failure_keeps_vectors persist_down_caps "key"
              "report.pdf" "PDFBYTES" report_elements report_images
              (Exception "disk full") empty_world eq_refl eq_refl eq_refl)
    as (Hresponse & Hgone & _).
  - constructor; [exact I|].
    constructor; [by exists "A table with one column and one row."|].
    repeat (constructor; [exact I|]). constructor.
  - reflexivity.
  - intros texts. reflexivity.
  - reflexivity.
  - split; [exact Hresponse|]. split; [exact Hgone|reflexivity].
Defined.

(** ** Further properties: the delete endpoint and repeated deletion *)

(** X13: Deleting a document whose file is present always answers 200 "deleted
    successfully" and removes exactly that file, whatever the vector store
    does: a store failure is swallowed below the endpoint, so the vectors
    may all still be there (the collection is either untouched or rid of
    the document's entries); with the store answering they are gone. *)
Theorem delete_document_always_succeeds (caps : Capabilities) (filename : string)
    (w : World) :
  let file_path := os_path_join UPLOAD_DIRECTORY filename in
  let name := sanitize_filename_for_collection filename in
  let before := collection_at w name in
  is_Some (fs w !! file_path) ->
  let w1 := snd (delete_document caps filename w) in
  fst (delete_document caps filename w)
  = JSONResponse 200
      [("status", "ok");
       ("message", "File '" +:+ filename
                   +:+ "' and its vector data deleted successfully.")]
  /\ fs w1 = delete file_path (fs w)
  /\ (collection_at w1 name = before
      \/ collection_at w1 name = filter (fun e => ¬ from_document filename e) before)
  /\ (store_available caps ->
      collection_at w1 name = filter (fun e => ¬ from_document filename e) before).
Proof.
  intros file_path name before Hfile w1.
  pose proof Hfile as Hex%os_path_exists_true. destruct Hfile as [bytes Hbytes].
  unfold w1, delete_document. fold file_path. rewrite Hex. cbn [negb].
  unfold os_remove, get_world, modify_world, raise, mbind, M_bind. rewrite Hbytes.
  destruct (delete_document_vectors_outcome caps filename (set_fs (delete file_path) w))
    as (w' & Hrun & Hfs & Hcases & Hrest & _).
  rewrite Hrun. cbn [fst snd]. split; [done|]. split; [exact Hfs|].
  split; [exact Hcases|exact Hrest].
Qed.

Lemma delete_document_always_succeeds_witness :
  fst (delete_document store_down_caps "report.pdf" uploaded_world)
  = JSONResponse 200
      [("status", "ok");
       ("message", "File 'report.pdf' and its vector data deleted successfully.")]
  /\ fs (snd (delete_document store_down_caps "report.pdf" uploaded_world))
     = delete report_path (fs uploaded_world)
  /\ size (collection_at (snd (delete_document store_down_caps "report.pdf"
                                 uploaded_world)) "rag_report_pdf") = 3.
Proof.
  assert (is_Some (fs uploaded_world !! os_path_join UPLOAD_DIRECTORY "report.pdf"))
    as Hfile by (by exists "PDFBYTES").
  destruct (delete_document_always_succeeds store_down_caps "report.pdf" uploaded_world
              Hfile) as (Hresponse & Hfs & _).
  split; [exact Hresponse|]. split; [exact Hfs|reflexivity].
Defined.

(** X14: Delete, then create again: once the delete endpoint has answered 200
    the name is free, so a new upload of it is never refused as existing. *)
Theorem delete_document_frees_the_name (caps : Capabilities) (filename : string)
    (status : nat) (body : list (string * string)) (w w1 : World) :
  delete_document caps filename w = (JSONResponse status body, w1) ->
  forall (caps' : Capabilities) (key bytes detail : string),
    fst (upload_file caps' key filename bytes w1) <> HTTPException 409 detail.
Proof.
  intros Hdel caps' key bytes detail.
  apply delete_document_removes_file in Hdel.
  pose proof Hdel as Hex%os_path_exists_false.
  unfold upload_file. rewrite Hex.
  destruct (write_file caps' _ bytes w1) as [[[]|e] w2]; [|done].
  destruct (process_and_store_document caps' _ filename key w2) as [[[]|e] w3]; [done|].
  by destruct (os_remove _ w3) as [[[]|e'] w4].
Qed.

Lemma delete_document_frees_the_name_witness :
  fst (upload_file example_caps "key" "report.pdf" "PDFBYTES"
         (snd (delete_document example_caps "report.pdf" uploaded_world)))
  <> HTTPException 409 "File with this name already exists.".
Proof.
  apply (delete_document_frees_the_name example_caps "report.pdf" 200
           [("status", "ok");
            ("message", "File 'report.pdf' and its vector data deleted successfully.")]
           uploaded_world
           (snd (delete_document example_caps "report.pdf" uploaded_world))).
  reflexivity.
Defined.

(** X15: Deleting twice is deleting once: with the store answering, a second
    deletion by the same filename returns None again and changes the
    entries of no collection. *)
Theorem delete_document_vectors_idempotent (caps : Capabilities) (filename : string)
    (w : World) :
  store_available caps ->
  let w1 := snd (delete_document_vectors caps filename w) in
  let w2 := snd (delete_document_vectors caps filename w1) in
  fst (delete_document_vectors caps filename w1) = Ok PyNone
  /\ forall name, collection_at w2 name = collection_at w1 name.
Proof.
  intros Hup w1 w2.
  set (name := sanitize_filename_for_collection filename).
  destruct (delete_document_vectors_outcome caps filename w)
    as (w1' & Hrun1 & _ & _ & Hrest1 & _).
  assert (w1 = w1') as Hw1 by (unfold w1; by rewrite Hrun1).
  destruct (delete_document_vectors_outcome caps filename w1)
    as (w2' & Hrun2 & _ & _ & Hrest2 & Hother2).
  assert (w2 = w2') as Hw2 by (unfold w2; by rewrite Hrun2).
  rewrite Hrun2. split; [done|]. intros other. rewrite Hw2.
  destruct (decide (other = name)) as [->|Hne]; [|by apply Hother2].
  fold name in Hrest1, Hrest2. rewrite (Hrest2 Hup), Hw1, (Hrest1 Hup).
  apply map_filter_id. intros id d [_ Hd]%map_lookup_filter_Some. exact Hd.
Qed.

Lemma delete_document_vectors_idempotent_witness :
  store_available example_caps
  /\ (let w1 := snd (delete_document_vectors example_caps "report.pdf" uploaded_world) in
      let w2 := snd (delete_document_vectors example_caps "report.pdf" w1) in
      fst (delete_document_vectors example_caps "report.pdf" w1) = Ok PyNone
      /\ forall name, collection_at w2 name = collection_at w1 name).
Proof.
  assert (store_available example_caps) as Hup by (intros op; reflexivity).
  split; [exact Hup|].
  exact (delete_document_vectors_idempotent example_caps "report.pdf" uploaded_world Hup).
Defined.

(** ** Further properties: what deletion leaves of an ingested document *)

Lemma map_to_list_filter {A : Type} (Q : string * A -> Prop)
    `{!forall e, Decision (Q e)} (m : gmap string A) :
  map_to_list (filter Q m) ≡ₚ filter Q (map_to_list m).
Proof.
  apply NoDup_Permutation.
  - apply NoDup_map_to_list.
  - apply NoDup_filter, NoDup_map_to_list.
  - intros [k x]. rewrite elem_of_map_to_list, map_lookup_filter_Some,
      list_elem_of_filter, elem_of_map_to_list. tauto.
Qed.

Lemma filter_other_source_values (filename : string) (l : list (string * Document)) :
  (filter (fun e => ¬ from_document filename e) l).*2
  = filter (other_source filename) (l.*2).
Proof.
  induction l as [|e l IH]; [done|].
  cbn [fmap list_fmap]. rewrite !filter_cons, <-IH.
  destruct (decide (¬ from_document filename e)) as [H1|H1],
    (decide (other_source filename e.2)) as [H2|H2]; try done.
Qed.

Lemma filter_from_document_length (filename : string) (c : gmap string Document) :
  size c
  = size (filter (fun e => ¬ from_document filename e) c)
    + length (filter (from_document filename) (map_to_list c)).
Proof.
  pose proof (filter_app_complement (from_document filename) (map_to_list c)) as H.
  apply Permutation_length in H. rewrite length_app in H.
  rewrite <-!length_map_to_list, map_to_list_filter.
  match goal with
  | H : _ + length ?x = _ |- _ = length ?y + _ =>
      replace y with x by (by apply list_filter_iff)
  end.
  lia.
Qed.

(** X16: Ingest, then delete: with every table summarised and the store
    answering, what deletion by the filename leaves in the document's
    collection is, beside the earlier entries of other sources, exactly the
    ingested chunks stored under another source; so each image of the
    document that was described, under a path other than the filename,
    still has its description there. *)
Theorem delete_after_ingestion_leaves_image_descriptions (caps : Capabilities)
    (file_path filename api_key bytes : string) (elements : list Element)
    (extracted : gmap string string) (w : World) :
  fs w !! file_path = Some bytes ->
  partition caps file_path bytes = Ok (elements, extracted) ->
  Forall (table_ok caps api_key) elements ->
  store_available caps ->
  let name := sanitize_filename_for_collection filename in
  let w1 := snd (process_and_store_document caps file_path filename api_key w) in
  let w2 := snd (delete_document_vectors caps filename w1) in
  (map_to_list (collection_at w2 name)).*2
  ≡ₚ filter (other_source filename)
       (ingested_documents caps (extracted ∪ fs w) filename api_key elements)
     ++ filter (other_source filename) (map_to_list (collection_at w name)).*2
  /\ (forall image_path img_bytes description,
        UnstructuredImage image_path ∈ elements ->
        (extracted ∪ fs w) !! image_path = Some img_bytes ->
        vision_llm caps img_bytes api_key = Ok description ->
        image_path <> filename ->
        mkDocument description (source_type_metadata image_path "image_description")
        ∈ (map_to_list (collection_at w2 name)).*2).
Proof.
  intros Hfile Hpart Hok Hup name w1 w2.
  destruct (process_and_store_document_ok caps file_path filename api_key bytes
              elements extracted w Hfile Hpart Hok Hup) as (w1' & Hrun1 & _ & Hdocs & _).
  assert (w1 = w1') as -> by (unfold w1; by rewrite Hrun1).
  destruct (delete_document_vectors_outcome caps filename w1')
    as (w2' & Hrun2 & _ & _ & Hrest & _).
  assert (w2 = w2') as -> by (unfold w2; by rewrite Hrun2).
  fold name in Hdocs, Hrest.
  assert ((map_to_list (collection_at w2' name)).*2
          ≡ₚ filter (other_source filename)
               (ingested_documents caps (extracted ∪ fs w) filename api_key elements)
             ++ filter (other_source filename)
                  (map_to_list (collection_at w name)).*2) as Hleft.
  { rewrite (Hrest Hup), map_to_list_filter, filter_other_source_values, Hdocs.
    by rewrite filter_app. }
  split; [exact Hleft|].
  intros image_path img_bytes description Hin Hbytes Hdesc Hne.
  rewrite Hleft. apply elem_of_app. left.
  apply list_elem_of_filter. split.
  - unfold other_source, source_type_metadata. cbn [metadata].
    rewrite lookup_insert_eq. congruence.
  - unfold ingested_documents. apply elem_of_app. left.
    apply list_elem_of_bind. exists (UnstructuredImage image_path). split; [|done].
    cbn [element_documents]. rewrite Hbytes, Hdesc. apply list_elem_of_singleton. done.
Qed.

Lemma delete_after_ingestion_leaves_image_descriptions_witness :
  let w1 :=
    snd (process_and_store_document example_caps report_path "report.pdf" "key"
           saved_world) in
  let w2 := snd (delete_document_vectors example_caps "report.pdf" w1) in
  mkDocument "A chart." (source_type_metadata figure1_path "image_description")
  ∈ (map_to_list (collection_at w2 "rag_report_pdf")).*2.
Proof.
  refine (proj2 (delete_after_ingestion_leaves_image_descriptions example_caps
                   report_path "report.pdf" "key" "PDFBYTES" report_elements
                   report_images saved_world eq_refl eq_refl _ _)
            figure1_path "JPEG" "A chart." _ eq_refl eq_refl _).
  - constructor; [exact I|].
    constructor; [by exists "A table with one column and one row."|].
    repeat (constructor; [exact I|]). constructor.
  - intros op. reflexivity.
  - unfold report_elements. do 2 right. left.
  - discriminate.
Defined.

(** X17: The count is printed, not returned: with the store answering, a
    deletion that finds n > 0 entries of the document prints "Found n
    vectors to delete ..." and then the success line, n being exactly the
    number of entries the collection loses; one that finds none prints a
    single "No vectors ..." line and removes nothing. *)
Theorem delete_document_vectors_prints_count (caps : Capabilities) (filename : string)
    (w : World) :
  store_available caps ->
  let name := sanitize_filename_for_collection filename in
  let w' := snd (delete_document_vectors caps filename w) in
  let n := length (filter (from_document filename) (map_to_list (collection_at w name))) in
  size (collection_at w name) = size (collection_at w' name) + n
  /\ (0 < n ->
      stdout w'
      = stdout w
        ++ ["Found " +:+ pretty n +:+ " vectors to delete for document: " +:+ filename;
            "Successfully deleted vectors for " +:+ filename +:+ "."])
  /\ (n = 0 -> exists line, stdout w' = stdout w ++ [line]).
Proof.
  intros Hup name w' n.
  split.
  { destruct (delete_document_vectors_outcome caps filename w)
      as (w1 & Hrun & _ & _ & Hrest & _).
    unfold w'. rewrite Hrun. cbn [snd]. fold name in Hrest. rewrite (Hrest Hup).
    apply filter_from_document_length. }
  unfold w', delete_document_vectors, try_except, Chroma, get_metadatas, delete_ids,
    persist, store_request, record_call, print, modify_world, get_world, raise,
    lift_result, mbind, M_bind, mret, M_ret.
  fold name. rewrite !Hup. cbn beta iota. world_simpl.
  change (default ∅ (chroma w !! name)) with (collection_at w name).
  cbn [ids metadatas].
  pose proof (select_ids_entries filename [] (map_to_list (collection_at w name))) as Hids.
  cbn [app length] in Hids. rewrite Hids. clear Hids.
  subst n.
  destruct (filter (from_document filename) (map_to_list (collection_at w name)))
    as [|e0 selected] eqn:Hsel.
  - split; [cbn; lia|]. intros _.
    destruct ((map_to_list (collection_at w name)).*1); cbn; eauto.
  - split; [|cbn; lia]. intros _.
    destruct ((map_to_list (collection_at w name)).*1) as [|id1 others] eqn:Hall.
    { apply fmap_nil_inv in Hall. by rewrite Hall in Hsel. }
    cbn [fmap list_fmap]. rewrite !Hup. cbn [fst snd stdout add_stdout add_call set_chroma].
    rewrite <-app_assoc. cbn [app length]. by rewrite length_fmap.
Qed.

Lemma delete_document_vectors_prints_count_witness :
  store_available example_caps
  /\ stdout (snd (delete_document_vectors example_caps "report.pdf" uploaded_world))
     = stdout uploaded_world
       ++ ["Found 2 vectors to delete for document: report.pdf";
           "Successfully deleted vectors for report.pdf."].
Proof.
  assert (store_available example_caps) as Hup by (intros op; reflexivity).
  split; [exact Hup|].
  refine (proj1 (proj2 (delete_document_vectors_prints_count example_caps "report.pdf"
                          uploaded_world Hup)) _).
  vm_compute. lia.
Defined.

(** ** Further properties: an upload whose save fails *)

(** X20: An upload whose save fails ends in 500 "Error saving file" with no
    pipeline work done.  If [open] failed nothing has changed.  If the
    copy failed the file that [open] had created stays, holding the bytes
    copied so far: the name is taken, so every further upload of it is
    refused with 409, and a query on it is no longer refused as not
    found. *)
Theorem upload_file_save_failure (caps : Capabilities) (key filename bytes : string)
    (w : World) :
  let file_path := os_path_join UPLOAD_DIRECTORY filename in
  let w1 := snd (upload_file caps key filename bytes w) in
  entry_name filename ->
  fs w !! file_path = None ->
  (forall e : exn,
     save_fault caps file_path = Some (OpenFails e) ->
     upload_file caps key filename bytes w
     = (HTTPException 500 ("Error saving file: " +:+ exn_msg e), w))
  /\ (forall (written : nat) (e : exn),
        save_fault caps file_path = Some (CopyFails written e) ->
        fst (upload_file caps key filename bytes w)
        = HTTPException 500 ("Error saving file: " +:+ exn_msg e)
        /\ fs w1 = <[file_path := String.substring 0 written bytes]> (fs w)
        /\ chroma w1 = chroma w
        /\ stdout w1 = stdout w
        /\ calls w1 = calls w
        /\ (forall (caps' : Capabilities) (key' bytes' : string),
              upload_file caps' key' filename bytes' w1
              = (HTTPException 409 "File with this name already exists.", w1))
        /\ (forall (caps' : Capabilities) (query key' detail : string),
              fst (query_document caps' filename query key' w1)
              <> HTTPException 404 detail)).
Proof.
  intros file_path w1 _ Hfree.
  pose proof Hfree as Hex%os_path_exists_false.
  split.
  - intros e Hsave. unfold upload_file. fold file_path. rewrite Hex.
    unfold write_file. by rewrite Hsave.
  - intros written e Hsave.
    assert (upload_file caps key filename bytes w
            = (HTTPException 500 ("Error saving file: " +:+ exn_msg e),
               set_fs (insert file_path (String.substring 0 written bytes)) w)) as Hrun.
    { unfold upload_file. fold file_path. rewrite Hex.
      unfold write_file. by rewrite Hsave. }
    unfold w1. rewrite Hrun. cbn [fst snd].
    assert (is_Some (fs (set_fs (insert file_path (String.substring 0 written bytes)) w)
                     !! file_path)) as Hthere.
    { cbn. rewrite lookup_insert_eq. by eexists. }
    repeat (split; [done|]). split.
    + intros caps' key' bytes'. by apply upload_file_existing.
    + intros caps' query key' detail. apply os_path_exists_true in Hthere.
      unfold query_document. fold file_path. rewrite Hthere. cbn [negb].
      by destruct ((rag_chain ← create_rag_chain caps' filename key';
                    rag_chain_invoke caps' rag_chain query) _) as [[answer|e'] w2].
Qed.

Lemma upload_file_save_failure_witness :
  upload_file copy_down_caps "key" "report.pdf" "PDFBYTES" empty_world
  = (HTTPException 500 "Error saving file: [Errno 28] No space left on device",
     mkWorld (<[report_path := "PDF"]> ∅) ∅ [] [])
  /\ fst (upload_file example_caps "key" "report.pdf" "PDFBYTES"
            (snd (upload_file copy_down_caps "key" "report.pdf" "PDFBYTES" empty_world)))
     = HTTPException 409 "File with this name already exists."
  /\ fst (query_document example_caps "report.pdf" "What?" "key"
            (snd (upload_file copy_down_caps "key" "report.pdf" "PDFBYTES" empty_world)))
     <> HTTPException 404 "Document not found.".
Proof.
  assert (entry_name "report.pdf") as Hname.
  { (repeat split; [done|done|done|]); cbn; repeat (constructor; [done|]); constructor. }
  destruct (proj2 (upload_file_save_failure copy_down_caps "key" "report.pdf" "PDFBYTES"
                     empty_world Hname eq_refl)
              3 (Exception "[Errno 28] No space left on device") eq_refl)
    as (Hresponse & _ & _ & _ & _ & Hagain & Hquery).
  split; [reflexivity|]. split.
  - by rewrite Hagain.
  - apply Hquery.
Defined.

Lemma query_document_store_down_witness :
  query_document store_down_caps "report.pdf" "What?" "key" uploaded_world
  = (HTTPException 500
       "Error during query processing: Could not connect to the vector store",
     add_call (CallStore (OpOpen "rag_report_pdf")) uploaded_world).
Proof.
  apply (query_document_store_down store_down_caps "report.pdf" "What?" "key"
           (Exception "Could not connect to the vector store") uploaded_world).
  - by exists "PDFBYTES".
  - reflexivity.
Defined.
